(** * COVID-19 impact on AI hiring rates: a model of [analysis.py]

    The script reads a CSV table of hiring rates (one ['Date'] column, one
    column per country), cleans the cells to floats, aggregates them over
    three calendar periods, runs a two-sample t-test, draws four charts and
    prints a summary.

    Python floats and numpy's float64 are IEEE 754 binary64 numbers; they
    are modelled by Rocq's primitive floats, so NaN, the infinities and the
    signed zeros behave as they do in the script. *)

From Stdlib Require Import ZArith List Bool Ascii String Lia Sorted Permutation.
From Stdlib Require Import Floats.
Import ListNotations.

Local Open Scope string_scope.
Local Open Scope list_scope.

(** ** Python values and floats *)

(** The cells [pd.read_csv] produces: text, floats (a missing cell is the
    float NaN), integers and booleans. *)
Inductive pyval : Type :=
| PStr (s : string)
| PFloat (f : float)
| PInt (z : Z)
| PBool (b : bool).

Definition is_finite (f : float) : bool :=
  negb (PrimFloat.is_nan f) && negb (PrimFloat.is_infinity f).

(** [float(n)] for a Python integer: the nearest binary64 number. *)
Definition float_of_Z (z : Z) : float :=
  SF2Prim (binary_normalize prec emax z 0 false).

Definition percent : ascii := "%"%char.

(** ['%' in value] *)
Fixpoint contains_percent (s : string) : bool :=
  match s with
  | EmptyString => false
  | String c r => if Ascii.eqb c percent then true else contains_percent r
  end.

(** [value.replace('%', '')] *)
Fixpoint remove_percent (s : string) : string :=
  match s with
  | EmptyString => EmptyString
  | String c r =>
      if Ascii.eqb c percent then remove_percent r else String c (remove_percent r)
  end.

Section Cleaner.

(** Python's [float(str)]: [None] stands for the [ValueError] it raises on
    text that is no number. *)
Variable py_float_of_string : string -> option float.

(** [float(value)]; [None] stands for a raised exception ([ValueError] on
    text, [OverflowError] on an integer beyond the float range). *)
Definition py_float (v : pyval) : option float :=
  match v with
  | PStr s => py_float_of_string s
  | PFloat f => Some f
  | PInt z =>
      let f := float_of_Z z in
      if PrimFloat.is_infinity f then None else Some f
  | PBool b => Some (if b then 1%float else 0%float)
  end.

(** The body of the [try] block of [clean_percentage]. *)
Definition clean_percentage_try (value : pyval) : option float :=
  match value with
  | PStr s =>
      if contains_percent s then py_float (PStr (remove_percent s))
      else py_float value
  | _ => py_float value
  end.

(** [clean_percentage]: the bare [except] turns every failure into NaN. *)
Definition clean_percentage (value : pyval) : float :=
  match clean_percentage_try value with
  | Some f => f
  | None => nan
  end.

End Cleaner.

(** ** Exceptions, output and the script's monad *)

(** A raised exception: its class and the text [str(e)] gives. *)
Inductive exn_class : Type :=
| FileNotFoundError
| KeyError
| ValueError
| TypeError
| AttributeError
| OtherError.

Record exn : Type := Exn { exn_kind : exn_class; exn_str : string }.

(** The stages of the batch run. *)
Inductive stage : Type :=
| Load | Clean | Aggregate | Test | Plot | Report.

(** What matplotlib is asked to draw. *)
Inductive chart : Type :=
| Barh (bars : list (string * float * string))
| Boxplot (pre during post : list float)
| Bar (bars : list (string * float))
| Scatter (points : list (float * float))
| Annotate (label : string) (x y : float).

(** What a run does, in order: it prints a line, opens a figure, draws on it
    or saves it to a file. [Enter s] is no output of the script: it marks
    the point where the code of stage [s] begins, which is the top of the
    [try] block for the load (the test of the path and [read_csv]), the
    cleaning loop for the cleaning (with the preprocessing of the dates), the
    period statistics for the aggregation (up to the global metrics), the
    call of [ttest_ind] for the test, and the calls of
    [create_visualizations] and [print_results] in the main script for the
    plot and the report. *)
Inductive event : Type :=
| Enter (s : stage)
| Out (line : string)
| Figure
| Draw (c : chart)
| SaveFig (file : string).

(** A computation logs events and either raises or returns. *)
Definition M (A : Type) : Type := (list event * (exn + A))%type.

Definition ret {A : Type} (a : A) : M A := ([], inr a).

Definition raise {A : Type} (e : exn) : M A := ([], inl e).

Definition bind {A B : Type} (m : M A) (k : A -> M B) : M B :=
  match m with
  | (t, inl e) => (t, inl e)
  | (t, inr a) => let (t', r) := k a in (t ++ t', r)
  end.

(** [try: m except Exception as e: h e] *)
Definition try_except {A : Type} (m : M A) (h : exn -> M A) : M A :=
  match m with
  | (t, inl e) => let (t', r) := h e in (t ++ t', r)
  | (t, inr a) => (t, inr a)
  end.

Definition emit (ev : event) : M unit := ([ev], inr tt).

Definition print (line : string) : M unit := emit (Out line).

(** Lift a library call that raises or returns. *)
Definition lift {A : Type} (r : exn + A) : M A := ([], r).

Definition trace {A : Type} (m : M A) : list event := fst m.

Definition outcome {A : Type} (m : M A) : exn + A := snd m.

Declare Scope script_scope.
Delimit Scope script_scope with script.
Notation "x <- m ;; k" := (bind m (fun x => k))
  (at level 61, m at next level, right associativity) : script_scope.
Notation "m ;;; k" := (bind m (fun _ => k))
  (at level 61, right associativity) : script_scope.

(** ** Data frames *)

Record datetime : Type := Datetime { year : Z; month : Z; day : Z }.

(** A column: raw cells as read, float64 values, timestamps (NaT is
    [None]) or the years of timestamps (missing for NaT). *)
Inductive series : Type :=
| SObj (l : list pyval)
| SNum (l : list float)
| SDate (l : list (option datetime))
| SYear (l : list (option Z)).

(** A frame is its columns in order; [read_csv] gives them distinct names. *)
Definition RawFrame : Type := list (string * list pyval).
Definition DataFrame : Type := list (string * series).

Definition columns (df : DataFrame) : list string := map fst df.

(** [df[name]]; [None] stands for the [KeyError]. *)
Fixpoint get_col (name : string) (df : DataFrame) : option series :=
  match df with
  | [] => None
  | (n, s) :: rest => if String.eqb n name then Some s else get_col name rest
  end.

(** [df[name] = s]: replaces the column in place, or appends it. *)
Fixpoint set_col (name : string) (s : series) (df : DataFrame) : DataFrame :=
  match df with
  | [] => [(name, s)]
  | (n, s0) :: rest =>
      if String.eqb n name then (n, s) :: rest
      else (n, s0) :: set_col name s rest
  end.

(** Boolean-mask selection [l[mask]]. *)
Fixpoint select {A : Type} (mask : list bool) (l : list A) : list A :=
  match mask, l with
  | b :: mask', x :: l' => if b then x :: select mask' l' else select mask' l'
  | _, _ => []
  end.

Definition select_series (mask : list bool) (s : series) : series :=
  match s with
  | SObj l => SObj (select mask l)
  | SNum l => SNum (select mask l)
  | SDate l => SDate (select mask l)
  | SYear l => SYear (select mask l)
  end.

(** [df[mask]] *)
Definition select_rows (mask : list bool) (df : DataFrame) : DataFrame :=
  map (fun c => (fst c, select_series mask (snd c))) df.

(** [years.isin(ys)]: a missing year is in no list. *)
Definition year_in (ys : list Z) (y : option Z) : bool :=
  match y with
  | Some z => existsb (Z.eqb z) ys
  | None => false
  end.

Definition isin (years : list (option Z)) (ys : list Z) : list bool :=
  map (year_in ys) years.

(** A value of the array [frame.values]. *)
Inductive scalar : Type :=
| VObj (v : pyval)
| VNum (f : float)
| VDate (d : option datetime)
| VYear (y : option Z).

Definition series_values (s : series) : list scalar :=
  match s with
  | SObj l => map VObj l
  | SNum l => map VNum l
  | SDate l => map VDate l
  | SYear l => map VYear l
  end.

Definition series_length (s : series) : nat := List.length (series_values s).

(** [df.iloc[:, 1:-1]]: every column but the first and the last. *)
Definition iloc_inner (df : DataFrame) : DataFrame := removelast (tl df).

(** [df.values.flatten()]: the cells row by row. *)
Fixpoint flatten_rows (n : nat) (cols : list (list scalar)) : list scalar :=
  match n with
  | O => []
  | S n' =>
      flat_map (fun c => match c with [] => [] | x :: _ => [x] end) cols
        ++ flatten_rows n' (map (@tl scalar) cols)
  end.

Definition nrows (df : DataFrame) : nat :=
  match df with
  | [] => O
  | (_, s) :: _ => series_length s
  end.

Definition values_flatten (df : DataFrame) : list scalar :=
  flatten_rows (nrows df) (map (fun c => series_values (snd c)) df).

(** ** Reductions of pandas *)

Definition notnan (f : float) : bool := negb (PrimFloat.is_nan f).

Definition float_of_nat (n : nat) : float := float_of_Z (Z.of_nat n).

(** Insertion of a labelled value into a list sorted by [le] on the values. *)
Fixpoint insert_by {A : Type} (le : float -> float -> bool)
    (x : A * float) (l : list (A * float)) : list (A * float) :=
  match l with
  | [] => [x]
  | y :: r => if le (snd x) (snd y) then x :: l else y :: insert_by le x r
  end.

Definition sort_by {A : Type} (le : float -> float -> bool)
    (l : list (A * float)) : list (A * float) :=
  fold_right (insert_by le) [] l.

Definition sort_floats (l : list float) : list float :=
  map snd (sort_by PrimFloat.leb (map (fun x => (tt, x)) l)).

(** The smaller of two values, the earlier one on a tie. *)
Definition pick_min {A : Type} (m x : A * float) : A * float :=
  if PrimFloat.ltb (snd x) (snd m) then x else m.

Definition pick_max {A : Type} (m x : A * float) : A * float :=
  if PrimFloat.ltb (snd m) (snd x) then x else m.

Definition valid_entries {A : Type} (l : list (A * float)) : list (A * float) :=
  filter (fun e => notnan (snd e)) l.

(** The first entry carrying the least (greatest) value that is not NaN. *)
Definition arg_min {A : Type} (l : list (A * float)) : option (A * float) :=
  match valid_entries l with
  | [] => None
  | e :: r => Some (fold_left pick_min r e)
  end.

Definition arg_max {A : Type} (l : list (A * float)) : option (A * float) :=
  match valid_entries l with
  | [] => None
  | e :: r => Some (fold_left pick_max r e)
  end.

(** [Series.idxmin()], [Series.min()] and their duals skip NaN; on a series
    with no other value the value is NaN and the label NA ([None]), as pandas
    gives it up to its version 2. *)
Definition idxmin (l : list (string * float)) : option string :=
  option_map fst (arg_min l).

Definition series_min (l : list (string * float)) : float :=
  match arg_min l with Some e => snd e | None => nan end.

Definition idxmax (l : list (string * float)) : option string :=
  option_map fst (arg_max l).

Definition series_max (l : list (string * float)) : float :=
  match arg_max l with Some e => snd e | None => nan end.

(** [Series.median()]: the middle of the sorted values that are not NaN, the
    float midpoint of the two middle ones when their number is even. *)
Definition nanmedian (l : list float) : float :=
  let xs := sort_floats (filter notnan l) in
  let n := List.length xs in
  match n with
  | O => nan
  | _ =>
      if Nat.odd n then nth (n / 2) xs nan
      else ((nth (n / 2 - 1) xs nan + nth (n / 2) xs nan) / 2)%float
  end.

Section Sums.

(** [numpy]'s sum of a float64 array; the order in which it adds, and so its
    rounding, is numpy's own matter. *)
Variable np_sum : list float -> float.

Definition fillna0 (l : list float) : list float :=
  map (fun x => if PrimFloat.is_nan x then 0%float else x) l.

Definition count_valid (l : list float) : nat := List.length (filter notnan l).

(** [Series.mean()]: NaN cells are skipped; with none left the mean is NaN. *)
Definition nanmean (l : list float) : float :=
  match count_valid l with
  | O => nan
  | n => (np_sum (fillna0 l) / float_of_nat n)%float
  end.

(** [Series.std()]: the sample standard deviation (one degree of freedom
    less) of the cells that are not NaN, NaN for fewer than two of them. As
    in the mean, the NaN cells count as zero in the two sums. *)
Definition nanstd (l : list float) : float :=
  match count_valid l with
  | O | 1%nat => nan
  | n =>
      let avg := (np_sum (fillna0 l) / float_of_nat n)%float in
      let sqr := map (fun x => if PrimFloat.is_nan x then 0%float
                               else ((avg - x) * (avg - x))%float) l in
      PrimFloat.sqrt (np_sum sqr / float_of_nat (n - 1))%float
  end.

End Sums.

(** ** The analysis *)

Definition nl : string := String (ascii_of_nat 10) EmptyString.

(** The per-country row of [results_df]. *)
Record country_stats : Type := CountryStats {
  pre_covid_mean : float;
  during_covid_mean : float;
  post_covid_mean : float;
  pct_change_during_covid : float
}.

Definition Results : Type := list (string * country_stats).

Record GlobalMetrics : Type := Metrics {
  mean_pct_change : float;
  median_pct_change : float;
  std_pct_change : float;
  most_impacted_country : option string;
  most_impacted_value : float;
  least_impacted_country : option string;
  least_impacted_value : float;
  t_statistic : float;
  p_value : float
}.

(** [results_df['pct_change_during_covid']] with its index. *)
Definition pct_column (r : Results) : list (string * float) :=
  map (fun e => (fst e, pct_change_during_covid (snd e))) r.

(** [((during_mean - pre_mean) / pre_mean) * 100] *)
Definition pct_change (pre_mean during_mean : float) : float :=
  (((during_mean - pre_mean) / pre_mean) * 100)%float.

Definition pre_years : list Z := [2018; 2019]%Z.
Definition during_years : list Z := [2020; 2021; 2022]%Z.
Definition post_years : list Z := [2023]%Z.

(** [[col for col in df.columns if col not in ['Date', 'Year']]] *)
Definition is_country (col : string) : bool :=
  negb (String.eqb col "Date" || String.eqb col "Year").

Definition countries_of (df : DataFrame) : list string :=
  filter is_country (columns df).

Fixpoint mapM {A B : Type} (f : A -> exn + B) (l : list A) : exn + list B :=
  match l with
  | [] => inr []
  | x :: r =>
      match f x with
      | inl e => inl e
      | inr y =>
          match mapM f r with
          | inl e => inl e
          | inr ys => inr (y :: ys)
          end
      end
  end.

Section Analysis.

Local Open Scope script_scope.

(** The libraries and the file system the script runs against. *)
Variable path_exists : string -> bool.
Variable read_csv : string -> exn + RawFrame.
Variable py_float_of_string : string -> option float.
(** [pd.to_datetime] with [format='%m/%d/%y'], cell by cell. *)
Variable to_datetime : pyval -> exn + option datetime.
Variable np_sum : list float -> float.
(** [scipy.stats.ttest_ind], giving the statistic and the p-value. *)
Variable ttest_ind : list scalar -> list scalar -> exn + (float * float).

(** The loop that cleans every column except ['Date']. *)
Definition clean_frame (raw : RawFrame) : DataFrame :=
  map (fun c =>
         if negb (String.eqb (fst c) "Date")
         then (fst c, SNum (map (clean_percentage py_float_of_string) (snd c)))
         else (fst c, SObj (snd c)))
      raw.

Definition to_datetime_series (s : series) : exn + list (option datetime) :=
  match s with
  | SObj l => mapM to_datetime l
  | SDate l => inr l
  | _ => inl (Exn TypeError "cannot convert the series to datetime")
  end.

(** The preprocessing of steps 1 and 2: timestamps, then the year column. *)
Definition preprocess (df : DataFrame) : exn + DataFrame :=
  match get_col "Date" df with
  | None => inl (Exn KeyError "'Date'")
  | Some s =>
      match to_datetime_series s with
      | inl e => inl e
      | inr dates =>
          let df1 := set_col "Date" (SDate dates) df in
          inr (set_col "Year" (SYear (map (option_map year) dates)) df1)
      end
  end.

(** [df['Year']] of a preprocessed frame. *)
Definition years_of (df : DataFrame) : list (option Z) :=
  match get_col "Year" df with
  | Some (SYear l) => l
  | _ => []
  end.

(** [df[df['Year'].isin(ys)]]; the post-COVID test [df['Year'] == 2023] is
    the same selection with the one year 2023. *)
Definition period (ys : list Z) (df : DataFrame) : DataFrame :=
  select_rows (isin (years_of df) ys) df.

(** [frame[country].mean()] *)
Definition column_mean (country : string) (frame : DataFrame) : exn + float :=
  match get_col country frame with
  | None => inl (Exn KeyError country)
  | Some (SNum l) => inr (nanmean np_sum l)
  | Some _ => inl (Exn TypeError "could not convert to numeric")
  end.

(** One turn of the loop over the countries. *)
Definition country_row (pre_covid during_covid post_covid : DataFrame)
    (country : string) : exn + (string * country_stats) :=
  match column_mean country pre_covid with
  | inl e => inl e
  | inr pre_mean =>
      match column_mean country during_covid with
      | inl e => inl e
      | inr during_mean =>
          match column_mean country post_covid with
          | inl e => inl e
          | inr post_mean =>
              inr (country,
                   CountryStats pre_mean during_mean post_mean
                     (pct_change pre_mean during_mean))
          end
      end
  end.

Definition country_results (df : DataFrame) : exn + Results :=
  mapM (country_row (period pre_years df) (period during_years df)
          (period post_years df))
       (countries_of df).

(** The two samples of the t-test. *)
Definition ttest_sample (ys : list Z) (df : DataFrame) : list scalar :=
  values_flatten (iloc_inner (period ys df)).

(** The metrics over the percentage changes; an empty [results_df] has no
    column to take, which is a [KeyError]. *)
Definition global_metrics_of (r : Results) (t : float * float)
    : GlobalMetrics :=
  let col := pct_column r in
  Metrics (nanmean np_sum (map snd col))
          (nanmedian (map snd col))
          (nanstd np_sum (map snd col))
          (idxmin col) (series_min col)
          (idxmax col) (series_max col)
          (fst t) (snd t).

Definition pct_series (r : Results) : exn + list (string * float) :=
  match r with
  | [] => inl (Exn KeyError "'pct_change_during_covid'")
  | _ => inr (pct_column r)
  end.

(** The body of the [try] block of [analyze_covid_impact]. *)
Definition analyze_try (file_path : string) : M (Results * GlobalMetrics) :=
  emit (Enter Load) ;;;
  (if path_exists file_path then ret tt
   else raise (Exn FileNotFoundError
                 ("The file " ++ file_path ++ " was not found"))) ;;;
  print ("Reading data from " ++ file_path ++ "...") ;;;
  raw <- lift (read_csv file_path) ;;
  emit (Enter Clean) ;;;
  print "Converting percentage values..." ;;;
  print (nl ++ "Preprocessing data...") ;;;
  df <- lift (preprocess (clean_frame raw)) ;;
  emit (Enter Aggregate) ;;;
  print "Calculating statistics for different periods..." ;;;
  print "Analyzing country-specific impacts..." ;;;
  results <- lift (country_results df) ;;
  print "Calculating global metrics..." ;;;
  _ <- lift (pct_series results) ;;
  emit (Enter Test) ;;;
  t <- lift (ttest_ind (ttest_sample pre_years df)
                       (ttest_sample during_years df)) ;;
  ret (results, global_metrics_of results t).

(** [analyze_covid_impact]: the pair it returns, (None, None) after any
    exception. *)
Definition analyze_covid_impact (file_path : string)
    : M (option Results * option GlobalMetrics) :=
  try_except
    (rg <- analyze_try file_path ;; ret (Some (fst rg), Some (snd rg)))
    (fun e =>
       print ("An error occurred: " ++ exn_str e) ;;;
       ret (None, None)).

End Analysis.

(** ** Charts, report and the main script *)

(** [sort_values] on the percentage change: ascending or descending, the
    NaN rows last. *)
Definition sort_values (ascending : bool) (r : Results) : Results :=
  let keyed := map (fun e => (e, pct_change_during_covid (snd e))) r in
  let le := if ascending then PrimFloat.leb else (fun a b => PrimFloat.leb b a) in
  map fst (sort_by le (filter (fun e => notnan (snd e)) keyed))
    ++ map fst (filter (fun e => PrimFloat.is_nan (snd e)) keyed).

Definition colors : list string :=
  ["#4A148C"; "#9C27B0"; "#1A237E"; "#3F51B5"].

Definition bar_color (width : float) : string :=
  if PrimFloat.ltb width 0 then nth 0 colors "" else nth 2 colors "".

(** The second column of [recovery_data]. *)
Definition post_pre_ratio (s : country_stats) : float :=
  ((post_covid_mean s - pre_covid_mean s) / pre_covid_mean s * 100)%float.

Definition notable (s : country_stats) : bool :=
  PrimFloat.ltb 50 (PrimFloat.abs (pct_change_during_covid s))
  || PrimFloat.ltb 50 (PrimFloat.abs (post_pre_ratio s)).

Section Script.

Local Open Scope script_scope.

Variable path_exists : string -> bool.
Variable read_csv : string -> exn + RawFrame.
Variable py_float_of_string : string -> option float.
Variable to_datetime : pyval -> exn + option datetime.
Variable np_sum : list float -> float.
Variable ttest_ind : list scalar -> list scalar -> exn + (float * float).
(** The formats [:.2f] and [:.4f], and the text printed for a series. *)
Variable format_f : nat -> float -> string.
Variable series_repr : list (string * float) -> string.

Fixpoint emit_all (evs : list event) : M unit :=
  match evs with
  | [] => ret tt
  | ev :: rest => emit ev ;;; emit_all rest
  end.

(** [create_visualizations]: it takes its arguments as they come, with no
    test for [None]; the first use of [results_df] is [sort_values]. *)
Definition create_visualizations (results_df : option Results)
    (global_metrics : option GlobalMetrics) : M unit :=
  emit Figure ;;;
  match results_df with
  | None =>
      raise (Exn AttributeError
               "'NoneType' object has no attribute 'sort_values'")
  | Some r =>
      let results_sorted := sort_values true r in
      emit (Draw (Barh (map (fun e =>
                               (fst e, pct_change_during_covid (snd e),
                                bar_color (pct_change_during_covid (snd e))))
                            results_sorted))) ;;;
      emit (SaveFig "impact_by_country.png") ;;;
      emit Figure ;;;
      emit (Draw (Boxplot (map (fun e => pre_covid_mean (snd e)) r)
                          (map (fun e => during_covid_mean (snd e)) r)
                          (map (fun e => post_covid_mean (snd e)) r))) ;;;
      emit (SaveFig "period_distribution.png") ;;;
      emit Figure ;;;
      emit (Draw (Bar (firstn 10 (pct_column results_sorted)))) ;;;
      emit (SaveFig "top_10_impacted.png") ;;;
      emit Figure ;;;
      emit (Draw (Scatter (map (fun e => (pct_change_during_covid (snd e),
                                          post_pre_ratio (snd e))) r))) ;;;
      emit_all (map (fun e => Draw (Annotate (fst e)
                                      (pct_change_during_covid (snd e))
                                      (post_pre_ratio (snd e))))
                    (filter (fun e => notable (snd e)) r)) ;;;
      emit (SaveFig "recovery_analysis.png") ;;;
      print (nl ++ "Visualizations have been saved as PNG files in your working directory:") ;;;
      print "1. impact_by_country.png - Shows the impact for all countries" ;;;
      print "2. period_distribution.png - Shows the distribution of rates across different periods" ;;;
      print "3. top_10_impacted.png - Highlights the 10 most impacted countries" ;;;
      print "4. recovery_analysis.png - Shows the relationship between impact and recovery"
  end.

Definition label_str (l : option string) : string :=
  match l with Some s => s | None => "nan" end.

(** [print_results]: nothing at all when either argument is [None]. *)
Definition print_results (results_df : option Results)
    (global_metrics : option GlobalMetrics) : M unit :=
  match results_df, global_metrics with
  | Some r, Some g =>
      print (nl ++ "=== Global Impact Summary ===") ;;;
      print ("Mean percentage change during COVID: "
               ++ format_f 2 (mean_pct_change g) ++ "%") ;;;
      print ("Median percentage change during COVID: "
               ++ format_f 2 (median_pct_change g) ++ "%") ;;;
      print ("Standard deviation of change: "
               ++ format_f 2 (std_pct_change g) ++ "%") ;;;
      print (nl ++ "=== Most and Least Impacted Countries ===") ;;;
      print ("Most impacted country: " ++ label_str (most_impacted_country g)
               ++ " (" ++ format_f 2 (most_impacted_value g) ++ "%)") ;;;
      print ("Least impacted country: " ++ label_str (least_impacted_country g)
               ++ " (" ++ format_f 2 (least_impacted_value g) ++ "%)") ;;;
      print (nl ++ "=== Statistical Significance ===") ;;;
      print ("t-statistic: " ++ format_f 2 (t_statistic g)) ;;;
      print ("p-value: " ++ format_f 4 (p_value g)) ;;;
      print (nl ++ "=== Top 5 Most Negatively Impacted Countries ===") ;;;
      print (series_repr (firstn 5 (pct_column (sort_values true r)))) ;;;
      print (nl ++ "=== Top 5 Least Impacted/Positive Growth Countries ===") ;;;
      print (series_repr (firstn 5 (pct_column (sort_values false r))))
  | _, _ => ret tt
  end.

Definition file_path : string := "fig_4.2.13.csv".

(** The script under [if __name__ == "__main__"], run on [path]. *)
Definition main_on (path : string) : M unit :=
  print "Starting analysis..." ;;;
  rg <- analyze_covid_impact path_exists read_csv py_float_of_string
          to_datetime np_sum ttest_ind path ;;
  print (nl ++ "Generating visualizations...") ;;;
  emit (Enter Plot) ;;;
  create_visualizations (fst rg) (snd rg) ;;;
  emit (Enter Report) ;;;
  print_results (fst rg) (snd rg).

Definition main : M unit := main_on file_path.

End Script.

(** The stages a run entered, in order. *)
Definition stages (t : list event) : list stage :=
  flat_map (fun ev => match ev with Enter s => [s] | _ => [] end) t.

(** ** A small world to run the script in

    Stand-ins for the libraries, enough to run the model on concrete tables:
    plain decimal numerals, dates written [m/d/yy], sums from left to right
    and a t-test that refuses anything but floats. *)
Module Sample.

Definition digit_of (c : ascii) : option Z :=
  let n := Z.of_nat (nat_of_ascii c) in
  if ((48 <=? n) && (n <=? 57))%Z then Some (n - 48)%Z else None.

(** Reads digits into [acc]; [None] on any other character. *)
Fixpoint digits (s : string) (acc : Z) : option Z :=
  match s with
  | EmptyString => Some acc
  | String c r =>
      match digit_of c with
      | Some d => digits r (10 * acc + d)%Z
      | None => None
      end
  end.

Fixpoint split_at (sep : ascii) (s : string) : string * option string :=
  match s with
  | EmptyString => (EmptyString, None)
  | String c r =>
      if Ascii.eqb c sep then (EmptyString, Some r)
      else let (a, b) := split_at sep r in (String c a, b)
  end.

Definition unsigned_decimal (s : string) : option float :=
  let (ip, fp) := split_at "."%char s in
  let fr := match fp with Some f => f | None => EmptyString end in
  match String.length (ip ++ fr), digits (ip ++ fr) 0 with
  | O, _ | _, None => None
  | _, Some n =>
      Some (float_of_Z n / float_of_Z (10 ^ Z.of_nat (String.length fr)))%float
  end.

(** Decimal numerals with an optional sign. *)
Definition py_float_of_string (s : string) : option float :=
  match s with
  | String "-"%char r => option_map PrimFloat.opp (unsigned_decimal r)
  | _ => unsigned_decimal s
  end.

Definition bad_date : exn := Exn ValueError "time data does not match format '%m/%d/%y'".

(** Dates [m/d/yy]; a two-digit year below 69 is in the 2000s. *)
Definition to_datetime (v : pyval) : exn + option datetime :=
  match v with
  | PStr s =>
      let (m, r1) := split_at "/"%char s in
      match r1 with
      | None => inl bad_date
      | Some r1 =>
          let (d, r2) := split_at "/"%char r1 in
          match r2 with
          | None => inl bad_date
          | Some y =>
              match digits m 0, digits d 0, digits y 0 with
              | Some mz, Some dz, Some yz =>
                  if ((1 <=? mz) && (mz <=? 12) && (1 <=? dz) && (dz <=? 31)
                      && (String.length y =? 2)%nat)%Z
                  then inr (Some (Datetime
                                    (if (yz <? 69)%Z then 2000 + yz else 1900 + yz)%Z
                                    mz dz))
                  else inl bad_date
              | _, _, _ => inl bad_date
              end
          end
      end
  | PFloat f => if PrimFloat.is_nan f then inr None else inl bad_date
  | _ => inl bad_date
  end.

Definition np_sum (l : list float) : float :=
  fold_left PrimFloat.add l 0%float.

Definition as_float (v : scalar) : exn + float :=
  match v with
  | VNum f => inr f
  | VYear (Some y) => inr (float_of_Z y)
  | VYear None => inr nan
  | _ => inl (Exn TypeError "unsupported operand type(s)")
  end.

Definition mean (l : list float) : float :=
  (np_sum l / float_of_nat (List.length l))%float.

Definition sum_sq (l : list float) : float :=
  let m := mean l in np_sum (map (fun x => ((x - m) * (x - m))%float) l).

(** The pooled-variance t statistic; the p-value is left NaN. *)
Definition ttest_ind (a b : list scalar) : exn + (float * float) :=
  match mapM as_float a, mapM as_float b with
  | inr xs, inr ys =>
      let n1 := float_of_nat (List.length xs) in
      let n2 := float_of_nat (List.length ys) in
      let sp := ((sum_sq xs + sum_sq ys) / (n1 + n2 - 2))%float in
      inr (((mean xs - mean ys) / PrimFloat.sqrt (sp * (1 / n1 + 1 / n2)))%float,
           nan)
  | inl e, _ | _, inl e => inl e
  end.

Definition csv_name : string := "fig_4.2.13.csv".

(** Four rows of two countries, one row in each period and one in 2017. *)
Definition table : RawFrame :=
  [ ("Date", [PStr "1/31/17"; PStr "6/30/19"; PStr "6/30/20"; PStr "6/30/23"]);
    ("Canada", [PStr "9%"; PStr "1.0%"; PStr "1.5%"; PStr "2%"]);
    ("France", [PFloat 7; PInt 2; PStr "n/a"; PFloat 1]) ].

(** A table whose first column is a country and whose second is ['Date']. *)
Definition shifted_table : RawFrame :=
  [ ("Canada", [PStr "1.0%"; PStr "1.5%"]);
    ("Date", [PStr "6/30/19"; PStr "6/30/20"]);
    ("France", [PInt 2; PInt 3]) ].

(** A table that comes with a ['Year'] column of its own. *)
Definition year_table : RawFrame :=
  [ ("Date", [PStr "6/30/19"; PStr "6/30/20"]);
    ("Year", [PInt 2019; PInt 2020]);
    ("Canada", [PStr "1.0%"; PStr "1.5%"]) ].

(** One country, with no cell that reads as a number. *)
Definition blank_table : RawFrame :=
  [ ("Date", [PStr "6/30/19"; PStr "6/30/20"]);
    ("Canada", [PStr "n/a"; PStr "n/a"]) ].

(** A country with no hiring before 2020 next to one with a fall. *)
Definition zero_table : RawFrame :=
  [ ("Date", [PStr "6/30/19"; PStr "6/30/20"]);
    ("Canada", [PStr "0%"; PStr "1.5%"]);
    ("France", [PStr "2%"; PStr "1%"]) ].

(** Two countries whose rates grow beyond measure. *)
Definition huge_table : RawFrame :=
  [ ("Date", [PStr "6/30/19"; PStr "6/30/20"]);
    ("Canada", [PInt 1; PFloat 0x1p1017]);
    ("France", [PInt 1; PFloat 0x1p1017]) ].

Definition files : list (string * RawFrame) :=
  [ (csv_name, table); ("shifted.csv", shifted_table);
    ("year.csv", year_table);
    ("blank.csv", blank_table); ("zero.csv", zero_table);
    ("huge.csv", huge_table) ].

Fixpoint lookup_file (p : string) (fs : list (string * RawFrame))
    : option RawFrame :=
  match fs with
  | [] => None
  | (n, t) :: rest => if String.eqb n p then Some t else lookup_file p rest
  end.

Definition path_exists (p : string) : bool :=
  match lookup_file p files with Some _ => true | None => false end.

Definition read_csv (p : string) : exn + RawFrame :=
  match lookup_file p files with
  | Some t => inr t
  | None => inl (Exn FileNotFoundError "No such file or directory")
  end.

Definition analyze : string -> M (option Results * option GlobalMetrics) :=
  analyze_covid_impact path_exists read_csv py_float_of_string to_datetime
    np_sum ttest_ind.

Definition format_f (digits : nat) (f : float) : string := "<float>".
Definition series_repr (l : list (string * float)) : string :=
  String.concat nl (map fst l).

Definition run : string -> M unit :=
  main_on path_exists read_csv py_float_of_string to_datetime np_sum
    ttest_ind format_f series_repr.

(** What the analysis returns on a file, and the frame it works on. *)
Definition results_of (p : string) : Results :=
  match outcome (analyze p) with
  | inr (Some r, _) => r
  | _ => []
  end.

Definition metrics_of (p : string) : option GlobalMetrics :=
  match outcome (analyze p) with
  | inr (_, g) => g
  | inl _ => None
  end.

Definition frame_of (t : RawFrame) : DataFrame :=
  match preprocess to_datetime (clean_frame py_float_of_string t) with
  | inr df => df
  | inl _ => []
  end.

Definition results : Results := Eval vm_compute in results_of csv_name.
Definition metrics : option GlobalMetrics := Eval vm_compute in metrics_of csv_name.
Definition frame : DataFrame := Eval vm_compute in frame_of table.
Definition zero_metrics : option GlobalMetrics :=
  Eval vm_compute in metrics_of "zero.csv".

End Sample.

(** ** Notions the statements use *)


(** The row masks of the three periods. *)
Definition pre_mask (df : DataFrame) : list bool := isin (years_of df) pre_years.
Definition during_mask (df : DataFrame) : list bool := isin (years_of df) during_years.
Definition post_mask (df : DataFrame) : list bool := isin (years_of df) post_years.

(** The first raw column of a name. *)
Fixpoint raw_col (name : string) (raw : RawFrame) : option (list pyval) :=
  match raw with
  | [] => None
  | (n, l) :: rest => if String.eqb n name then Some l else raw_col name rest
  end.

(** The float cells of a column of a frame, none for other columns. *)
Definition column_floats (name : string) (df : DataFrame) : list float :=
  match get_col name df with
  | Some (SNum l) => l
  | _ => []
  end.

(** The statistics of one country, as the loop computes them. *)
Definition country_stats_of np_sum (df : DataFrame) (c : string) : country_stats :=
  let pre_mean := nanmean np_sum (select (pre_mask df) (column_floats c df)) in
  let during_mean := nanmean np_sum (select (during_mask df) (column_floats c df)) in
  let post_mean := nanmean np_sum (select (post_mask df) (column_floats c df)) in
  CountryStats pre_mean during_mean post_mean (pct_change pre_mean during_mean).

(** The years of the three periods together, and the mask of the rows that
    fall in one of them. *)
Definition study_years : list Z := pre_years ++ during_years ++ post_years.

Definition study_mask (df : DataFrame) : list bool :=
  isin (years_of df) study_years.

(** The country columns of a frame, by name. *)
Definition country_frame (df : DataFrame) : DataFrame :=
  filter (fun c => is_country (fst c)) df.

Definition is_float_value (v : scalar) : Prop := exists f, v = VNum f.

(** The stages in the order of the script. *)
Definition all_stages : list stage := [Load; Clean; Aggregate; Test; Plot; Report].



Definition none_error : exn :=
  Exn AttributeError "'NoneType' object has no attribute 'sort_values'".

(** Classes of a float, read on its IEEE 754 description. *)
Definition SF_is_finite (x : spec_float) : bool :=
  match x with
  | S754_zero _ | S754_finite _ _ _ => true
  | _ => false
  end.

Definition SF_notnan (x : spec_float) : bool :=
  match x with S754_nan => false | _ => true end.









(** The number of rows a mask selects. *)
Definition count_true (mask : list bool) : nat :=
  List.length (filter (fun b => b) mask).

(** A file whose columns all have [n] cells. *)
Definition rectangular (n : nat) (raw : RawFrame) : Prop :=
  Forall (fun c => List.length (snd c) = n) raw.

(** The change of a row of results that is not NaN. *)
Definition valid_row (e : string * country_stats) : bool :=
  notnan (pct_change_during_covid (snd e)).

(** The order [sort_values] sorts by. *)
Definition row_le (ascending : bool) (p q : string * country_stats) : Prop :=
  if ascending
  then PrimFloat.leb (pct_change_during_covid (snd p))
                     (pct_change_during_covid (snd q)) = true
  else PrimFloat.leb (pct_change_during_covid (snd q))
                     (pct_change_during_covid (snd p)) = true.

(** Further files to run the script on. *)
Module Cases.

(** A file with no ['Date'] column. *)
Definition undated_table : RawFrame :=
  [ ("Day", [PStr "6/30/19"; PStr "6/30/20"]);
    ("Canada", [PStr "1.0%"; PStr "1.5%"]) ].

(** A file with dates and no country. *)
Definition dates_only_table : RawFrame :=
  [ ("Date", [PStr "6/30/19"; PStr "6/30/20"]) ].

(** Three countries over the years 2018 to 2023, with a missing cell. *)
Definition wide_table : RawFrame :=
  [ ("Date", [PStr "3/31/18"; PStr "6/30/19"; PStr "6/30/20";
              PStr "6/30/21"; PStr "6/30/22"; PStr "6/30/23"]);
    ("Canada", [PStr "1.0%"; PStr "1.0%"; PStr "0.5%";
                PStr "0.5%"; PStr "0.5%"; PStr "1.2%"]);
    ("France", [PStr "2%"; PStr "2%"; PStr "5%"; PStr "5%"; PStr "5%"; PStr "3%"]);
    ("Japan", [PStr "4%"; PFloat nan; PStr "4%"; PStr "4%"; PStr "4%"; PStr "4%"]) ].

Definition files : list (string * RawFrame) :=
  [ ("undated.csv", undated_table); ("dates.csv", dates_only_table);
    ("wide.csv", wide_table) ].

Definition path_exists (p : string) : bool :=
  match Sample.lookup_file p files with Some _ => true | None => false end.

Definition read_csv (p : string) : exn + RawFrame :=
  match Sample.lookup_file p files with
  | Some t => inr t
  | None => inl (Exn FileNotFoundError "No such file or directory")
  end.

(** A reading of dates that keeps the year and the month only. *)
Definition to_datetime_first (v : pyval) : exn + option datetime :=
  match Sample.to_datetime v with
  | inr (Some d) => inr (Some (Datetime (year d) (month d) 1))
  | other => other
  end.

Definition analyze : string -> M (option Results * option GlobalMetrics) :=
  analyze_covid_impact path_exists read_csv Sample.py_float_of_string
    Sample.to_datetime Sample.np_sum Sample.ttest_ind.

Definition run : string -> M unit :=
  main_on path_exists read_csv Sample.py_float_of_string Sample.to_datetime
    Sample.np_sum Sample.ttest_ind Sample.format_f Sample.series_repr.

Definition wide_frame : DataFrame :=
  Eval vm_compute in Sample.frame_of wide_table.

Definition wide_results : Results :=
  Eval vm_compute in
    match outcome (analyze "wide.csv") with
    | inr (Some r, _) => r
    | _ => []
    end.

Definition wide_metrics : option GlobalMetrics :=
  Eval vm_compute in
    match outcome (analyze "wide.csv") with
    | inr (_, g) => g
    | inl _ => None
    end.

End Cases.

(** * Properties *)

(** ** The cleaner *)

Example float_of_Z_5 : float_of_Z 5 = 5%float.
Proof. vm_compute. reflexivity. Qed.

Example sample_parse : Sample.py_float_of_string "1.5" = Some 1.5%float.
Proof. vm_compute. reflexivity. Qed.


Lemma remove_percent_clean (s : string) :
  contains_percent (remove_percent s) = false.
Proof.
  induction s as [| c r IH]; simpl; [reflexivity |].
  destruct (Ascii.eqb c percent) eqn:E; simpl; [exact IH | now rewrite E].
Qed.

Lemma clean_frame_columns pf (raw : RawFrame) :
  columns (clean_frame pf raw) = map fst raw.
Proof.
  unfold columns, clean_frame. rewrite map_map.
  apply map_ext. intros [n l]; simpl.
  now destruct (String.eqb n "Date").
Qed.


(** ** Frames and periods *)

Lemma get_col_set_col_same (n : string) (s : series) (df : DataFrame) :
  get_col n (set_col n s df) = Some s.
Proof.
  induction df as [| [m s0] rest IH]; simpl.
  - now rewrite String.eqb_refl.
  - destruct (String.eqb m n) eqn:E; simpl; rewrite E; [reflexivity | exact IH].
Qed.

Lemma get_col_set_col_other (n m : string) (s : series) (df : DataFrame) :
  n <> m -> get_col n (set_col m s df) = get_col n df.
Proof.
  intros Hne. induction df as [| [k s0] rest IH]; simpl.
  - destruct (String.eqb_spec m n); [congruence | reflexivity].
  - destruct (String.eqb_spec k m) as [-> | Hkm]; simpl.
    + destruct (String.eqb_spec m n); [congruence | reflexivity].
    + now rewrite IH.
Qed.

Lemma columns_select_rows (mask : list bool) (df : DataFrame) :
  columns (select_rows mask df) = columns df.
Proof.
  unfold columns, select_rows. rewrite map_map. reflexivity.
Qed.

Lemma get_col_select_rows (mask : list bool) (n : string) (df : DataFrame) :
  get_col n (select_rows mask df) = option_map (select_series mask) (get_col n df).
Proof.
  induction df as [| [m s] rest IH]; simpl; [reflexivity |].
  destruct (String.eqb m n); [reflexivity | exact IH].
Qed.

(** A selection keeps exactly the positions its mask marks, in order. *)
Lemma select_spec {A : Type} (mask : list bool) (l : list A) (x : A) :
  In x (select mask l) <->
  exists i, nth_error mask i = Some true /\ nth_error l i = Some x.
Proof.
  revert l. induction mask as [| b mask IH]; intros l.
  - simpl. split; [contradiction |]. intros [i [H _]]. now destruct i.
  - destruct l as [| y l]; simpl.
    + split; [contradiction |]. intros [i [_ H]]. now destruct i.
    + destruct b; simpl; rewrite IH; split.
      * intros [-> | [i Hi]]; [now exists 0%nat | now exists (S i)].
      * intros [[| i] [H1 H2]]; simpl in *;
          [left; congruence | right; now exists i].
      * intros [i Hi]. now exists (S i).
      * intros [[| i] [H1 H2]]; simpl in *; [discriminate | now exists i].
Qed.




(** What [preprocess] leaves in the frame. *)
Lemma preprocess_inv to_datetime (df df' : DataFrame) :
  preprocess to_datetime df = inr df' ->
  exists s dates,
    get_col "Date" df = Some s
    /\ to_datetime_series to_datetime s = inr dates
    /\ df' = set_col "Year" (SYear (map (option_map year) dates))
               (set_col "Date" (SDate dates) df)
    /\ get_col "Date" df' = Some (SDate dates)
    /\ years_of df' = map (option_map year) dates.
Proof.
  unfold preprocess. intros H.
  destruct (get_col "Date" df) as [s |] eqn:Hs; [| discriminate].
  destruct (to_datetime_series to_datetime s) as [e | dates] eqn:Hd;
    [discriminate |].
  injection H as <-. exists s, dates.
  repeat split; try reflexivity; try assumption.
  - rewrite get_col_set_col_other by discriminate.
    apply get_col_set_col_same.
  - unfold years_of. now rewrite get_col_set_col_same.
Qed.

Lemma nth_error_isin (years : list (option Z)) (ys : list Z) (i : nat) :
  nth_error (isin years ys) i = option_map (year_in ys) (nth_error years i).
Proof. unfold isin. apply nth_error_map. Qed.


(** ** The monad *)

Lemma outcome_bind {A B : Type} (m : M A) (k : A -> M B) :
  outcome (bind m k)
  = match outcome m with inl e => inl e | inr a => outcome (k a) end.
Proof.
  destruct m as [t [e | a]]; simpl; [reflexivity |].
  unfold outcome. now destruct (k a).
Qed.

Lemma trace_bind {A B : Type} (m : M A) (k : A -> M B) :
  trace (bind m k)
  = trace m ++ match outcome m with inl _ => [] | inr a => trace (k a) end.
Proof.
  destruct m as [t [e | a]]; simpl; [now rewrite app_nil_r |].
  unfold trace. now destruct (k a).
Qed.

Lemma outcome_try_except {A : Type} (m : M A) (h : exn -> M A) :
  outcome (try_except m h)
  = match outcome m with inl e => outcome (h e) | inr a => inr a end.
Proof.
  destruct m as [t [e | a]]; simpl; [| reflexivity].
  unfold outcome. now destruct (h e).
Qed.

Lemma trace_try_except {A : Type} (m : M A) (h : exn -> M A) :
  trace (try_except m h)
  = trace m ++ match outcome m with inl e => trace (h e) | inr _ => [] end.
Proof.
  destruct m as [t [e | a]]; simpl; [| now rewrite app_nil_r].
  unfold trace. now destruct (h e).
Qed.

Lemma mapM_inr {A B : Type} (f : A -> exn + B) (l : list A) (ys : list B) :
  mapM f l = inr ys -> Forall2 (fun x y => f x = inr y) l ys.
Proof.
  revert ys. induction l as [| x r IH]; simpl; intros ys H.
  - injection H as <-. constructor.
  - destruct (f x) as [e | y] eqn:Hx; [discriminate |].
    destruct (mapM f r) as [e | ys'] eqn:Hr; [discriminate |].
    injection H as <-. constructor; auto.
Qed.

Lemma mapM_total {A B : Type} (f : A -> exn + B) (g : A -> B) (l : list A) :
  (forall x, In x l -> f x = inr (g x)) -> mapM f l = inr (map g l).
Proof.
  induction l as [| x r IH]; simpl; intros H; [reflexivity |].
  rewrite (H x) by now left. rewrite IH; [reflexivity |].
  intros y Hy. apply H. now right.
Qed.

(** ** Per-country results *)

Lemma columns_set_col (n : string) (s : series) (df : DataFrame) (c : string) :
  In c (columns (set_col n s df)) -> c = n \/ In c (columns df).
Proof.
  induction df as [| [m s0] rest IH]; simpl.
  - intros [<- | []]. now left.
  - destruct (String.eqb_spec m n) as [-> | Hne]; simpl.
    + intros [<- | H]; auto.
    + intros [<- | H]; auto. destruct (IH H); auto.
Qed.

Lemma is_country_spec (c : string) :
  is_country c = true <-> c <> "Date" /\ c <> "Year".
Proof.
  unfold is_country. rewrite negb_true_iff, orb_false_iff.
  split; intros [H1 H2].
  - split; intros ->; discriminate.
  - split; apply String.eqb_neq; assumption.
Qed.

Lemma get_col_clean_frame pf (raw : RawFrame) (c : string) :
  c <> "Date" -> In c (map fst raw) ->
  exists cells,
    raw_col c raw = Some cells
    /\ get_col c (clean_frame pf raw) = Some (SNum (map (clean_percentage pf) cells)).
Proof.
  intros Hne. induction raw as [| [n l] rest IH]; simpl; [contradiction |].
  intros Hin. destruct (String.eqb_spec n c) as [-> | Hnc].
  - exists l. split; [reflexivity |].
    destruct (String.eqb_spec c "Date"); [contradiction |]. simpl.
    now rewrite String.eqb_refl.
  - destruct Hin as [-> | Hin]; [contradiction |].
    destruct (IH Hin) as (cells & H1 & H2). exists cells. split; [exact H1 |].
    destruct (negb (String.eqb n "Date")); simpl;
      (destruct (String.eqb_spec n c); [contradiction | exact H2]).
Qed.

(** Every country column of the preprocessed table holds the cleaned cells of
    the raw column of that name. *)
Lemma country_column_cleaned pf to_datetime (raw : RawFrame) (df : DataFrame)
    (c : string) :
  preprocess to_datetime (clean_frame pf raw) = inr df ->
  In c (countries_of df) ->
  exists cells,
    raw_col c raw = Some cells
    /\ get_col c df = Some (SNum (map (clean_percentage pf) cells)).
Proof.
  intros Hp Hc.
  destruct (preprocess_inv _ _ _ Hp) as (s & dates & _ & _ & -> & _ & _).
  unfold countries_of in Hc. apply filter_In in Hc. destruct Hc as [Hin Hc].
  apply is_country_spec in Hc. destruct Hc as [HnD HnY].
  apply columns_set_col in Hin. destruct Hin as [-> | Hin]; [contradiction |].
  apply columns_set_col in Hin. destruct Hin as [-> | Hin]; [contradiction |].
  rewrite clean_frame_columns in Hin.
  destruct (get_col_clean_frame pf raw c HnD Hin) as (cells & H1 & H2).
  exists cells. split; [exact H1 |].
  now rewrite !get_col_set_col_other by assumption.
Qed.

Lemma column_mean_period np_sum (ys : list Z) (df : DataFrame) (c : string)
    (l : list float) :
  get_col c df = Some (SNum l) ->
  column_mean np_sum c (period ys df)
  = inr (nanmean np_sum (select (isin (years_of df) ys) l)).
Proof.
  intros H. unfold column_mean, period.
  now rewrite get_col_select_rows, H.
Qed.

(** On a cleaned and preprocessed table the loop over the countries raises
    nothing and gives one row per country, in column order. *)
Lemma country_results_total pf to_datetime np_sum (raw : RawFrame) (df : DataFrame) :
  preprocess to_datetime (clean_frame pf raw) = inr df ->
  country_results np_sum df
  = inr (map (fun c => (c, country_stats_of np_sum df c)) (countries_of df)).
Proof.
  intros Hp. unfold country_results. apply mapM_total. intros c Hc.
  destruct (country_column_cleaned _ _ _ _ _ Hp Hc) as (cells & _ & Hg).
  unfold country_row, country_stats_of, column_floats,
    pre_mask, during_mask, post_mask.
  rewrite !(column_mean_period _ _ _ _ _ Hg), Hg. reflexivity.
Qed.

(** ** What the analysis returns *)

Section AnalysisFacts.

Variable path_exists : string -> bool.
Variable read_csv : string -> exn + RawFrame.
Variable py_float_of_string : string -> option float.
Variable to_datetime : pyval -> exn + option datetime.
Variable np_sum : list float -> float.
Variable ttest_ind : list scalar -> list scalar -> exn + (float * float).

Let analyze_try' :=
  analyze_try path_exists read_csv py_float_of_string to_datetime np_sum ttest_ind.
Let analyze' :=
  analyze_covid_impact path_exists read_csv py_float_of_string to_datetime
    np_sum ttest_ind.

(** The steps of the [try] block, each raising or passing on its result. *)
Lemma analyze_try_outcome (path : string) :
  outcome (analyze_try' path)
  = if path_exists path then
      match read_csv path with
      | inl e => inl e
      | inr raw =>
          match preprocess to_datetime (clean_frame py_float_of_string raw) with
          | inl e => inl e
          | inr df =>
              match country_results np_sum df with
              | inl e => inl e
              | inr results =>
                  match pct_series results with
                  | inl e => inl e
                  | inr _ =>
                      match ttest_ind (ttest_sample pre_years df)
                              (ttest_sample during_years df) with
                      | inl e => inl e
                      | inr t => inr (results, global_metrics_of np_sum results t)
                      end
                  end
              end
          end
      end
    else inl (Exn FileNotFoundError ("The file " ++ path ++ " was not found")).
Proof.
  unfold analyze_try', analyze_try.
  repeat (rewrite outcome_bind; cbn [outcome emit print snd lift]).
  destruct (path_exists path); cbn [outcome ret raise snd]; [| reflexivity].
  repeat (rewrite outcome_bind; cbn [outcome emit print snd lift]).
  destruct (read_csv path) as [e | raw]; [reflexivity |].
  repeat (rewrite outcome_bind; cbn [outcome emit print snd lift]).
  destruct (preprocess _ _) as [e | df]; [reflexivity |].
  repeat (rewrite outcome_bind; cbn [outcome emit print snd lift]).
  destruct (country_results _ _) as [e | results]; [reflexivity |].
  repeat (rewrite outcome_bind; cbn [outcome emit print snd lift]).
  destruct (pct_series results) as [e | col]; [reflexivity |].
  repeat (rewrite outcome_bind; cbn [outcome emit print snd lift]).
  destruct (ttest_ind _ _) as [e | t]; reflexivity.
Qed.

Lemma analyze_outcome (path : string) :
  outcome (analyze' path)
  = match outcome (analyze_try' path) with
    | inl _ => inr (None, None)
    | inr rg => inr (Some (fst rg), Some (snd rg))
    end.
Proof.
  unfold analyze', analyze_covid_impact.
  rewrite outcome_try_except, outcome_bind. fold analyze_try'.
  destruct (outcome (analyze_try' path)) as [e | rg]; [| reflexivity].
  rewrite outcome_bind. reflexivity.
Qed.

(** What a returned table of results comes from. *)
Lemma analyze_inv (path : string) (results : Results) (g : option GlobalMetrics) :
  outcome (analyze' path) = inr (Some results, g) ->
  exists raw df t,
    path_exists path = true
    /\ read_csv path = inr raw
    /\ preprocess to_datetime (clean_frame py_float_of_string raw) = inr df
    /\ country_results np_sum df = inr results
    /\ results <> []
    /\ ttest_ind (ttest_sample pre_years df) (ttest_sample during_years df) = inr t
    /\ g = Some (global_metrics_of np_sum results t).
Proof.
  rewrite analyze_outcome, analyze_try_outcome.
  destruct (path_exists path); [| discriminate].
  destruct (read_csv path) as [e | raw]; [discriminate |].
  destruct (preprocess _ _) as [e | df] eqn:Hp; [discriminate |].
  destruct (country_results _ _) as [e | res] eqn:Hc; [discriminate |].
  destruct (pct_series res) as [e | col] eqn:Hcol; [discriminate |].
  destruct (ttest_ind _ _) as [e | t] eqn:Ht; [discriminate |].
  simpl. intros [= <- <-]. exists raw, df, t.
  repeat (split; [first [reflexivity | assumption] |]).
  split; [| split; [assumption | reflexivity]].
  destruct res; [discriminate | discriminate].
Qed.


End AnalysisFacts.

(** ** Rows outside the periods *)

Lemma select_nil {A : Type} (mask : list bool) : select mask (@nil A) = [].
Proof. now destruct mask. Qed.

Lemma select_select {A B : Type} (f g : B -> bool) (ys : list B) (l : list A) :
  (forall y, g y = true -> f y = true) ->
  select (map g (select (map f ys) ys)) (select (map f ys) l)
  = select (map g ys) l.
Proof.
  intros Hgf. revert l. induction ys as [| y ys IH]; intros l; [reflexivity |].
  destruct l as [| x l].
  - now rewrite !select_nil.
  - simpl. destruct (f y) eqn:Hf; simpl.
    + destruct (g y); now rewrite IH.
    + destruct (g y) eqn:Hg; [| apply IH].
      apply Hgf in Hg. congruence.
Qed.

Lemma year_in_study (ys : list Z) (y : option Z) :
  ys = pre_years \/ ys = during_years \/ ys = post_years ->
  year_in ys y = true -> year_in study_years y = true.
Proof.
  destruct y as [z |]; [| discriminate]. unfold study_years. simpl.
  intros [-> | [-> | ->]]; simpl; rewrite !orb_true_iff; intuition.
Qed.

Lemma year_outside (z : Z) :
  (z < 2018 \/ 2023 < z)%Z -> year_in study_years (Some z) = false.
Proof.
  intros H. simpl. rewrite !orb_false_iff. repeat split; lia.
Qed.

(** Dropping the rows outside the three periods changes no period frame. *)
Lemma period_study_rows (ys : list Z) (df : DataFrame) (years : list (option Z)) :
  ys = pre_years \/ ys = during_years \/ ys = post_years ->
  get_col "Year" df = Some (SYear years) ->
  period ys (select_rows (study_mask df) df) = period ys df.
Proof.
  intros Hys Hy. unfold period, study_mask.
  assert (Hyears : years_of df = years) by (unfold years_of; now rewrite Hy).
  assert (Hsel : years_of (select_rows (isin years study_years) df)
                 = select (isin years study_years) years).
  { unfold years_of. now rewrite get_col_select_rows, Hy. }
  rewrite Hyears, Hsel. unfold select_rows. rewrite map_map.
  apply map_ext. intros [n s]. simpl. f_equal.
  unfold isin.
  destruct s; simpl; f_equal; apply select_select; intros y;
    apply year_in_study; exact Hys.
Qed.

(** C10. A row dated in a year before 2018 or after 2023 is in none of the
    three period frames, and the table without such rows gives the same
    period frames, the same per-country means and percentage changes and the
    same two t-test samples. The periods need not cover the table: a table
    with a row of 2017 leaves that row in no period. *)
Theorem outside_rows_ignored :
  (forall to_datetime np_sum (df0 df : DataFrame),
      preprocess to_datetime df0 = inr df ->
      (forall i z, nth_error (years_of df) i = Some (Some z) ->
         (z < 2018 \/ 2023 < z)%Z ->
         nth_error (pre_mask df) i = Some false
         /\ nth_error (during_mask df) i = Some false
         /\ nth_error (post_mask df) i = Some false
         /\ nth_error (study_mask df) i = Some false)
      /\ let kept := select_rows (study_mask df) df in
         period pre_years kept = period pre_years df
         /\ period during_years kept = period during_years df
         /\ period post_years kept = period post_years df
         /\ country_results np_sum kept = country_results np_sum df
         /\ ttest_sample pre_years kept = ttest_sample pre_years df
         /\ ttest_sample during_years kept = ttest_sample during_years df)
  /\ (exists df0 df i,
        preprocess Sample.to_datetime df0 = inr df
        /\ nth_error (years_of df) i = Some (Some 2017%Z)
        /\ nth_error (pre_mask df) i = Some false
        /\ nth_error (during_mask df) i = Some false
        /\ nth_error (post_mask df) i = Some false).
Proof.
  split.
  - intros to_datetime np_sum df0 df Hp. split.
    + intros i z Hi Hz.
      unfold pre_mask, during_mask, post_mask, study_mask.
      rewrite !nth_error_isin, Hi. simpl.
      pose proof (year_outside z Hz) as Ho. simpl in Ho.
      rewrite !orb_false_iff in Ho.
      destruct Ho as (H18 & H19 & H20 & H21 & H22 & H23 & _).
      rewrite H18, H19, H20, H21, H22, H23. auto.
    + destruct (preprocess_inv _ _ _ Hp) as (s & dates & _ & _ & Hdf & _ & _).
      assert (Hy : get_col "Year" df = Some (SYear (map (option_map year) dates)))
        by (rewrite Hdf; apply get_col_set_col_same).
      pose proof (fun ys H => period_study_rows ys df _ H Hy) as Hper.
      cbv zeta.
      rewrite (Hper pre_years), (Hper during_years), (Hper post_years) by auto.
      repeat split.
      * unfold country_results, countries_of.
        rewrite columns_select_rows.
        rewrite (Hper pre_years), (Hper during_years), (Hper post_years) by auto.
        reflexivity.
      * unfold ttest_sample. now rewrite (Hper pre_years) by auto.
      * unfold ttest_sample. now rewrite (Hper during_years) by auto.
  - exists (clean_frame Sample.py_float_of_string Sample.table).
    eexists. exists 0%nat. split; [vm_compute; reflexivity |].
    repeat split; vm_compute; reflexivity.
Qed.

(** ** The samples of the t-test *)

Lemma set_col_absent (n : string) (s : series) (df : DataFrame) :
  ~ In n (columns df) -> set_col n s df = df ++ [(n, s)].
Proof.
  induction df as [| [m s0] rest IH]; simpl; intros H; [reflexivity |].
  destruct (String.eqb_spec m n) as [-> | Hne]; [tauto |].
  rewrite IH; [reflexivity | tauto].
Qed.

Lemma select_rows_app (mask : list bool) (a b : DataFrame) :
  select_rows mask (a ++ b) = select_rows mask a ++ select_rows mask b.
Proof. apply map_app. Qed.

Lemma flatten_rows_Forall (P : scalar -> Prop) (n : nat) (cols : list (list scalar)) :
  Forall (Forall P) cols -> Forall P (flatten_rows n cols).
Proof.
  revert cols. induction n as [| n IH]; intros cols H; simpl; [constructor |].
  apply Forall_app. split.
  - apply Forall_flat_map. eapply Forall_impl; [| exact H].
    intros [| x c] Hc; [constructor |].
    constructor; [now inversion Hc | constructor].
  - apply IH. apply Forall_map. eapply Forall_impl; [| exact H].
    intros [| x c] Hc; [constructor | now inversion Hc].
Qed.

Lemma clean_frame_numeric pf (rest : RawFrame) :
  ~ In "Date" (map fst rest) ->
  Forall (fun c => exists l, snd c = SNum l) (clean_frame pf rest).
Proof.
  induction rest as [| [n l] rest IH]; simpl; intros H; constructor.
  - destruct (String.eqb_spec n "Date") as [-> | Hne]; [tauto |].
    simpl. eauto.
  - apply IH. tauto.
Qed.

Lemma country_frame_all (df : DataFrame) :
  Forall (fun c => is_country (fst c) = true) df -> country_frame df = df.
Proof.
  unfold country_frame. induction 1 as [| c df Hc _ IH]; simpl; [reflexivity |].
  now rewrite Hc, IH.
Qed.

(** With ['Date'] as the first column of the file and no column named
    ['Year'], the positions 1 to the last but one are the country columns,
    and each sample pools their cleaned values over the rows of its period. *)
Lemma ttest_sample_countries pf to_datetime (dcells : list pyval)
    (rest : RawFrame) (df : DataFrame) (ys : list Z) :
  ~ In "Date" (map fst rest) -> ~ In "Year" (map fst rest) ->
  preprocess to_datetime (clean_frame pf (("Date", dcells) :: rest)) = inr df ->
  country_frame df = clean_frame pf rest
  /\ ttest_sample ys df
     = values_flatten (select_rows (isin (years_of df) ys) (country_frame df))
  /\ Forall is_float_value (ttest_sample ys df).
Proof.
  intros HnD HnY Hp.
  destruct (preprocess_inv _ _ _ Hp) as (s & dates & Hs & _ & Hdf & _ & _).
  simpl in Hdf. rewrite set_col_absent in Hdf
    by (rewrite clean_frame_columns; exact HnY).
  assert (Hall : Forall (fun c => is_country (fst c) = true) (clean_frame pf rest)).
  { apply Forall_forall. intros c Hc. apply is_country_spec.
    assert (Hin : In (fst c) (map fst rest)).
    { rewrite <- clean_frame_columns with (pf := pf). now apply in_map. }
    split; intros E; rewrite E in Hin; tauto. }
  assert (Hcf : country_frame df = clean_frame pf rest).
  { rewrite Hdf. unfold country_frame. simpl. rewrite filter_app. simpl.
    rewrite app_nil_r. apply (country_frame_all _ Hall). }
  assert (Hsample : ttest_sample ys df
            = values_flatten (select_rows (isin (years_of df) ys) (clean_frame pf rest))).
  { unfold ttest_sample, period, iloc_inner. rewrite Hdf at 2.
    simpl. rewrite select_rows_app. simpl. now rewrite removelast_last. }
  split; [exact Hcf |]. split; [now rewrite Hcf |].
  rewrite Hsample. unfold values_flatten. apply flatten_rows_Forall.
  apply Forall_map. unfold select_rows. apply Forall_map.
  eapply Forall_impl; [| exact (clean_frame_numeric pf rest HnD)].
  intros [n c] [l Hl]. simpl in *. subst c. simpl.
  apply Forall_map. apply Forall_forall. intros f _. now exists f.
Qed.

(** C3. The samples are taken by position, not by name. On a table whose
    first column is a country and whose second is ['Date'], the first sample
    holds the timestamp of the 2019 row and the value of France, and no value
    of Canada, although Canada is one of the countries of the per-country
    loop; the second sample likewise. On a table that has a ['Year'] column
    after ['Date'], the samples hold the years and no value of Canada. *)
Theorem ttest_sample_by_position :
  (exists df,
     preprocess Sample.to_datetime
       (clean_frame Sample.py_float_of_string Sample.shifted_table) = inr df
     /\ countries_of df = ["Canada"; "France"]
     /\ column_floats "Canada" df = [1%float; 1.5%float]
     /\ ttest_sample pre_years df
        = [VDate (Some (Datetime 2019 6 30)); VNum 2%float]
     /\ ttest_sample during_years df
        = [VDate (Some (Datetime 2020 6 30)); VNum 3%float]
     /\ ~ Forall is_float_value (ttest_sample pre_years df))
  /\ (exists df,
        preprocess Sample.to_datetime
          (clean_frame Sample.py_float_of_string Sample.year_table) = inr df
        /\ countries_of df = ["Canada"]
        /\ column_floats "Canada" df = [1%float; 1.5%float]
        /\ ttest_sample pre_years df = [VYear (Some 2019%Z)]
        /\ ttest_sample during_years df = [VYear (Some 2020%Z)]
        /\ ~ Forall is_float_value (ttest_sample pre_years df)).
Proof.
  split; eexists; (split; [vm_compute; reflexivity |]);
    repeat split; try (vm_compute; reflexivity);
    intros H; inversion H as [| v l [f Hf] _]; discriminate Hf.
Qed.

(** ** The run as a whole *)

Lemma stages_app (a b : list event) : stages (a ++ b) = stages a ++ stages b.
Proof. unfold stages. apply flat_map_app. Qed.

Lemma stages_draws {A : Type} (f : A -> chart) (l : list A) :
  stages (map (fun e => Draw (f e)) l) = [].
Proof. induction l as [| x l IH]; simpl; [reflexivity | exact IH]. Qed.

Section RunFacts.

Variable path_exists : string -> bool.
Variable read_csv : string -> exn + RawFrame.
Variable py_float_of_string : string -> option float.
Variable to_datetime : pyval -> exn + option datetime.
Variable np_sum : list float -> float.
Variable ttest_ind : list scalar -> list scalar -> exn + (float * float).
Variable format_f : nat -> float -> string.
Variable series_repr : list (string * float) -> string.

Let analyze_try' :=
  analyze_try path_exists read_csv py_float_of_string to_datetime np_sum ttest_ind.
Let analyze' :=
  analyze_covid_impact path_exists read_csv py_float_of_string to_datetime
    np_sum ttest_ind.
Let main_on' :=
  main_on path_exists read_csv py_float_of_string to_datetime np_sum ttest_ind
    format_f series_repr.

Lemma analyze_trace (path : string) :
  trace (analyze' path)
  = trace (analyze_try' path)
      ++ match outcome (analyze_try' path) with
         | inl e => [Out ("An error occurred: " ++ exn_str e)]
         | inr _ => []
         end.
Proof.
  unfold analyze', analyze_covid_impact.
  rewrite trace_try_except, trace_bind, outcome_bind. fold analyze_try'.
  destruct (outcome (analyze_try' path)) as [e | rg]; simpl.
  - now rewrite app_nil_r.
  - now rewrite !app_nil_r.
Qed.


(** The stages the analysis entered: all four when it returns its results,
    fewer when a step raised. *)
Lemma analyze_try_stages (path : string) :
  stages (trace (analyze_try' path))
  = match outcome (analyze_try' path) with
    | inr _ => [Load; Clean; Aggregate; Test]
    | inl _ =>
        if path_exists path then
          match read_csv path with
          | inl _ => [Load]
          | inr raw =>
              match preprocess to_datetime (clean_frame py_float_of_string raw) with
              | inl _ => [Load; Clean]
              | inr df =>
                  match country_results np_sum df with
                  | inl _ => [Load; Clean; Aggregate]
                  | inr results =>
                      match pct_series results with
                      | inl _ => [Load; Clean; Aggregate]
                      | inr _ => [Load; Clean; Aggregate; Test]
                      end
                  end
              end
          end
        else [Load]
    end.
Proof.
  unfold analyze_try', analyze_try, bind, lift, print, emit, ret, raise.
  destruct (path_exists path); [| reflexivity].
  destruct (read_csv path) as [e | raw]; [reflexivity |].
  destruct (preprocess _ _) as [e | df]; [reflexivity |].
  destruct (country_results _ _) as [e | results]; [reflexivity |].
  destruct (pct_series results) as [e | col]; [reflexivity |].
  destruct (ttest_ind _ _) as [e | t]; reflexivity.
Qed.

Lemma analyze_stages (path : string) :
  stages (trace (analyze' path)) = stages (trace (analyze_try' path)).
Proof.
  rewrite analyze_trace, stages_app.
  destruct (outcome (analyze_try' path)); simpl; apply app_nil_r.
Qed.

Lemma emit_all_run (evs : list event) :
  emit_all evs = (evs, inr tt).
Proof.
  induction evs as [| ev evs IH]; simpl; [reflexivity |].
  rewrite IH. reflexivity.
Qed.

(** Drawing the charts of a table of results raises nothing and enters no
    stage of its own. *)
Lemma create_visualizations_some (r : Results) (g : option GlobalMetrics) :
  outcome (create_visualizations (Some r) g) = inr tt
  /\ stages (trace (create_visualizations (Some r) g)) = [].
Proof.
  unfold create_visualizations.
  repeat (rewrite ?outcome_bind, ?trace_bind, ?stages_app, ?emit_all_run;
          cbn [outcome trace emit print fst snd stages flat_map app]).
  split; [reflexivity |]. rewrite app_nil_r.
  apply (stages_draws (fun e => Annotate (fst e) (pct_change_during_covid (snd e))
                                 (post_pre_ratio (snd e)))).
Qed.

Lemma print_results_stages (r : option Results) (g : option GlobalMetrics) :
  outcome (print_results format_f series_repr r g) = inr tt
  /\ stages (trace (print_results format_f series_repr r g)) = [].
Proof.
  destruct r as [r |], g as [g |]; split; reflexivity.
Qed.

(** The stages of a whole run, by what the analysis returned. *)
Lemma main_stages (path : string) :
  stages (trace (main_on' path))
  = stages (trace (analyze_try' path))
      ++ match outcome (analyze_try' path) with
         | inr _ => [Plot; Report]
         | inl _ => [Plot]
         end.
Proof.
  unfold main_on', main_on.
  rewrite trace_bind, stages_app. cbn [outcome print emit snd stages flat_map trace fst app].
  rewrite trace_bind, stages_app. fold analyze'. rewrite analyze_stages.
  f_equal.
  pose proof (analyze_outcome path_exists read_csv py_float_of_string
                to_datetime np_sum ttest_ind path) as Ho.
  cbv zeta in Ho. fold analyze' in Ho. fold analyze_try' in Ho. rewrite Ho.
  destruct (outcome (analyze_try' path)) as [e | [r g]]; cbn [fst snd].
  - reflexivity.
  - rewrite trace_bind, stages_app. cbn [outcome print emit snd stages flat_map trace fst app].
    rewrite trace_bind, stages_app. cbn [outcome print emit snd stages flat_map trace fst app].
    rewrite trace_bind, stages_app.
    destruct (create_visualizations_some r (Some g)) as [Hco Hcs].
    rewrite Hco, Hcs.
    rewrite trace_bind, stages_app. cbn [outcome print emit snd stages flat_map trace fst app].
    destruct (print_results_stages (Some r) (Some g)) as [_ Hps].
    unfold stages in Hps. rewrite Hps. reflexivity.
Qed.

Lemma main_outcome (path : string) :
  outcome (main_on' path)
  = match outcome (analyze_try' path) with
    | inr _ => inr tt
    | inl _ => inl none_error
    end.
Proof.
  unfold main_on', main_on.
  rewrite outcome_bind. cbn [outcome print emit snd].
  rewrite outcome_bind. fold analyze'.
  pose proof (analyze_outcome path_exists read_csv py_float_of_string
                to_datetime np_sum ttest_ind path) as Ho.
  cbv zeta in Ho. fold analyze' in Ho. fold analyze_try' in Ho. rewrite Ho.
  destruct (outcome (analyze_try' path)) as [e | [r g]]; cbn [fst snd].
  - reflexivity.
  - rewrite outcome_bind. cbn [outcome print emit snd].
    rewrite outcome_bind. cbn [outcome print emit snd].
    rewrite outcome_bind.
    destruct (create_visualizations_some r (Some g)) as [Hco _].
    rewrite Hco. reflexivity.
Qed.

Lemma in_stages (s : stage) (t : list event) :
  In (Enter s) t <-> In s (stages t).
Proof.
  unfold stages. rewrite in_flat_map. split.
  - intros H. exists (Enter s). split; [exact H | now left].
  - intros [ev [H1 H2]]. destruct ev; simpl in H2; try contradiction.
    destruct H2 as [-> | []]. exact H1.
Qed.

(** The stages the analysis entered before an exception: a prefix of its
    four, the load stage at least. *)
Lemma failed_stages (path : string) (e : exn) :
  outcome (analyze_try' path) = inl e ->
  exists n, (1 <= n <= 4)%nat
            /\ stages (trace (analyze_try' path)) = firstn n all_stages.
Proof.
  intros He. rewrite analyze_try_stages, He.
  destruct (path_exists path); [| exists 1%nat; split; [lia | reflexivity]].
  destruct (read_csv path); [exists 1%nat; split; [lia | reflexivity] |].
  destruct (preprocess _ _); [exists 2%nat; split; [lia | reflexivity] |].
  destruct (country_results _ _); [exists 3%nat; split; [lia | reflexivity] |].
  destruct (pct_series _); [exists 3%nat | exists 4%nat];
    (split; [lia | reflexivity]).
Qed.


(** C8. [print_results] prints nothing and returns when either argument is
    [None]; [create_visualizations] has no such test and raises
    [AttributeError] on [None] results, after opening its first figure.
    So when the analysis returns [(None, None)] the run enters the plot
    stage and ends there with that exception, before any report. *)
Theorem failed_analysis_breaks_plot :
  forall path : string,
    (forall r g, r = None \/ g = None ->
       print_results format_f series_repr r g = ret tt)
    /\ (forall g, create_visualizations None g = ([Figure], inl none_error))
    /\ (outcome (analyze' path) = inr (None, None) ->
          outcome (main_on' path) = inl none_error
          /\ In (Enter Plot) (trace (main_on' path))
          /\ ~ In (Enter Report) (trace (main_on' path))).
Proof.
  intros path. split; [| split].
  - intros r g [-> | ->]; [reflexivity | now destruct r].
  - reflexivity.
  - intros Hnone.
    pose proof (analyze_outcome path_exists read_csv py_float_of_string
                  to_datetime np_sum ttest_ind path) as Ho.
    cbv zeta in Ho. fold analyze' in Ho. fold analyze_try' in Ho.
    rewrite Hnone in Ho.
    destruct (outcome (analyze_try' path)) as [e | rg] eqn:He;
      [| discriminate].
    rewrite main_outcome, He. split; [reflexivity |].
    rewrite !in_stages, main_stages, He.
    destruct (failed_stages path e He) as (n & Hn & ->).
    split.
    + apply in_or_app. right. now left.
    + destruct n as [| [| [| [| [| n]]]]]; try lia; simpl;
        intuition discriminate.
Qed.

End RunFacts.

(** ** Floats: classes and order *)

Lemma SFcompare_refl (x : spec_float) :
  x <> S754_nan -> SFcompare x x = Some Eq.
Proof.
  destruct x as [s | s | | s m e]; simpl; intros H; try congruence.
  - now destruct s.
  - fold (Pos.compare m m). rewrite Z.compare_refl, Pos.compare_refl.
    now destruct s.
Qed.

Lemma is_nan_spec (f : float) :
  PrimFloat.is_nan f = negb (SF_notnan (Prim2SF f)).
Proof.
  unfold PrimFloat.is_nan. rewrite FloatAxioms.eqb_spec. unfold SFeqb.
  destruct (Prim2SF f) eqn:E; try reflexivity.
  - now destruct s.
  - rewrite SFcompare_refl; [reflexivity | discriminate].
Qed.

Lemma notnan_spec (f : float) : notnan f = SF_notnan (Prim2SF f).
Proof. unfold notnan. rewrite is_nan_spec. apply negb_involutive. Qed.

Lemma is_infinity_spec (f : float) :
  PrimFloat.is_infinity f
  = match Prim2SF f with S754_infinity _ => true | _ => false end.
Proof.
  unfold PrimFloat.is_infinity. rewrite FloatAxioms.eqb_spec, abs_spec.
  change (Prim2SF infinity) with (S754_infinity false).
  destruct (Prim2SF f) as [s | s | | s m e]; reflexivity.
Qed.

Lemma is_finite_spec (f : float) : is_finite f = SF_is_finite (Prim2SF f).
Proof.
  unfold is_finite. rewrite is_nan_spec, is_infinity_spec.
  now destruct (Prim2SF f).
Qed.

Ltac break_compare :=
  repeat match goal with
         | |- context [Z.compare ?a ?b] => destruct (Z.compare_spec a b)
         | |- context [Pos.compare_cont Eq ?a ?b] =>
             change (Pos.compare_cont Eq a b) with (Pos.compare a b)
         | |- context [Pos.compare ?a ?b] => destruct (Pos.compare_spec a b)
         end.

Lemma SFleb_trans (x y z : spec_float) :
  SFleb x y = true -> SFleb y z = true -> SFleb x z = true.
Proof.
  unfold SFleb, SFcompare.
  destruct x as [sx | sx | | sx mx ex], y as [sy | sy | | sy my ey],
    z as [sz | sz | | sz mz ez];
    try destruct sx; try destruct sy; try destruct sz;
    try reflexivity; try discriminate;
    break_compare; simpl; try reflexivity; try discriminate;
    intros; subst; lia.
Qed.

Lemma SFleb_total (x y : spec_float) :
  SF_notnan x = true -> SF_notnan y = true ->
  SFltb x y = false -> SFleb y x = true.
Proof.
  unfold SFleb, SFltb, SFcompare.
  destruct x as [sx | sx | | sx mx ex], y as [sy | sy | | sy my ey];
    try destruct sx; try destruct sy;
    try reflexivity; try discriminate;
    break_compare; simpl; try reflexivity; try discriminate;
    intros; subst; lia.
Qed.

Lemma leb_trans (a b c : float) :
  PrimFloat.leb a b = true -> PrimFloat.leb b c = true ->
  PrimFloat.leb a c = true.
Proof. rewrite !leb_spec. apply SFleb_trans. Qed.

Lemma leb_total (a b : float) :
  notnan a = true -> notnan b = true ->
  PrimFloat.ltb a b = false -> PrimFloat.leb b a = true.
Proof. rewrite !notnan_spec, ltb_spec, leb_spec. apply SFleb_total. Qed.

Lemma SFleb_flip (x y : spec_float) :
  SF_notnan x = true -> SF_notnan y = true ->
  SFleb x y = false -> SFleb y x = true.
Proof.
  unfold SFleb, SFcompare.
  destruct x as [sx | sx | | sx mx ex], y as [sy | sy | | sy my ey];
    try destruct sx; try destruct sy;
    try reflexivity; try discriminate;
    break_compare; simpl; try reflexivity; try discriminate;
    intros; subst; lia.
Qed.

Lemma leb_flip (a b : float) :
  notnan a = true -> notnan b = true ->
  PrimFloat.leb a b = false -> PrimFloat.leb b a = true.
Proof. rewrite !notnan_spec, !leb_spec. apply SFleb_flip. Qed.

Lemma ltb_leb (a b : float) :
  PrimFloat.ltb a b = true -> PrimFloat.leb a b = true.
Proof.
  rewrite ltb_spec, leb_spec. unfold SFleb, SFltb.
  destruct (SFcompare _ _) as [[| |] |]; congruence.
Qed.

Lemma leb_refl (a : float) : notnan a = true -> PrimFloat.leb a a = true.
Proof.
  rewrite notnan_spec, leb_spec. intros H. unfold SFleb.
  rewrite SFcompare_refl; [reflexivity |]. intros E. now rewrite E in H.
Qed.

Lemma leb_notnan (a b : float) :
  PrimFloat.leb a b = true -> notnan a = true /\ notnan b = true.
Proof.
  rewrite !notnan_spec, leb_spec. unfold SFleb.
  destruct (Prim2SF a), (Prim2SF b); simpl; auto; discriminate.
Qed.

(** ** Division by the pre-COVID mean *)


Section NonFinite.

Variable path_exists : string -> bool.
Variable read_csv : string -> exn + RawFrame.
Variable py_float_of_string : string -> option float.
Variable to_datetime : pyval -> exn + option datetime.
Variable np_sum : list float -> float.
Variable ttest_ind : list scalar -> list scalar -> exn + (float * float).

Let analyze' :=
  analyze_covid_impact path_exists read_csv py_float_of_string to_datetime
    np_sum ttest_ind.

(** Each row of the returned table holds the change computed from its own
    two means, and the metrics are those of the whole table. *)
Lemma results_rows (path : string) (results : Results)
    (g : option GlobalMetrics) :
  outcome (analyze' path) = inr (Some results, g) ->
  (forall c s, In (c, s) results ->
     pct_change_during_covid s
     = pct_change (pre_covid_mean s) (during_covid_mean s))
  /\ exists t, g = Some (global_metrics_of np_sum results t).
Proof.
  intros H.
  destruct (analyze_inv _ _ _ _ _ _ _ _ _ H)
    as (raw & df & t & _ & _ & Hp & Hc & _ & _ & Hg).
  split; [| now exists t].
  rewrite (country_results_total _ _ _ _ _ Hp) in Hc. injection Hc as <-.
  intros c s Hin. apply in_map_iff in Hin.
  destruct Hin as (c' & [= <- <-] & _). reflexivity.
Qed.


End NonFinite.

(** ** Extremes and the median *)

Lemma pick_min_cases {A : Type} (m x : A * float) :
  notnan (snd m) = true -> notnan (snd x) = true ->
  (pick_min m x = m \/ pick_min m x = x)
  /\ PrimFloat.leb (snd (pick_min m x)) (snd m) = true
  /\ PrimFloat.leb (snd (pick_min m x)) (snd x) = true.
Proof.
  intros Hm Hx. unfold pick_min.
  destruct (PrimFloat.ltb (snd x) (snd m)) eqn:E.
  - split; [now right |]. split; [now apply ltb_leb | now apply leb_refl].
  - split; [now left |]. split; [now apply leb_refl | now apply leb_total].
Qed.

Lemma pick_max_cases {A : Type} (m x : A * float) :
  notnan (snd m) = true -> notnan (snd x) = true ->
  (pick_max m x = m \/ pick_max m x = x)
  /\ PrimFloat.leb (snd m) (snd (pick_max m x)) = true
  /\ PrimFloat.leb (snd x) (snd (pick_max m x)) = true.
Proof.
  intros Hm Hx. unfold pick_max.
  destruct (PrimFloat.ltb (snd m) (snd x)) eqn:E.
  - split; [now right |]. split; [now apply ltb_leb | now apply leb_refl].
  - split; [now left |]. split; [now apply leb_refl | now apply leb_total].
Qed.

Lemma fold_pick_min {A : Type} (r : list (A * float)) (e : A * float) :
  Forall (fun x => notnan (snd x) = true) (e :: r) ->
  In (fold_left pick_min r e) (e :: r)
  /\ forall x, In x (e :: r) ->
       PrimFloat.leb (snd (fold_left pick_min r e)) (snd x) = true.
Proof.
  revert e. induction r as [| y r IH]; intros e Hall.
  - simpl. split; [now left |]. intros x [<- | []].
    apply leb_refl. now inversion Hall.
  - inversion Hall as [| ? ? He Hr]; subst.
    inversion Hr as [| ? ? Hy Hr']; subst.
    destruct (pick_min_cases e y He Hy) as (Hcase & Hle_e & Hle_y).
    simpl fold_left.
    assert (Hall' : Forall (fun x => notnan (snd x) = true) (pick_min e y :: r)).
    { constructor; [destruct Hcase as [-> | ->]; assumption | exact Hr']. }
    destruct (IH _ Hall') as [Hin Hle]. split.
    + destruct Hin as [Hin | Hin].
      * rewrite <- Hin. destruct Hcase as [-> | ->]; simpl; auto.
      * right. now right.
    + intros x [<- | [<- | Hx]].
      * eapply leb_trans; [apply Hle; now left | exact Hle_e].
      * eapply leb_trans; [apply Hle; now left | exact Hle_y].
      * apply Hle. now right.
Qed.

Lemma fold_pick_max {A : Type} (r : list (A * float)) (e : A * float) :
  Forall (fun x => notnan (snd x) = true) (e :: r) ->
  In (fold_left pick_max r e) (e :: r)
  /\ forall x, In x (e :: r) ->
       PrimFloat.leb (snd x) (snd (fold_left pick_max r e)) = true.
Proof.
  revert e. induction r as [| y r IH]; intros e Hall.
  - simpl. split; [now left |]. intros x [<- | []].
    apply leb_refl. now inversion Hall.
  - inversion Hall as [| ? ? He Hr]; subst.
    inversion Hr as [| ? ? Hy Hr']; subst.
    destruct (pick_max_cases e y He Hy) as (Hcase & Hle_e & Hle_y).
    simpl fold_left.
    assert (Hall' : Forall (fun x => notnan (snd x) = true) (pick_max e y :: r)).
    { constructor; [destruct Hcase as [-> | ->]; assumption | exact Hr']. }
    destruct (IH _ Hall') as [Hin Hle]. split.
    + destruct Hin as [Hin | Hin].
      * rewrite <- Hin. destruct Hcase as [-> | ->]; simpl; auto.
      * right. now right.
    + intros x [<- | [<- | Hx]].
      * eapply leb_trans; [exact Hle_e | apply Hle; now left].
      * eapply leb_trans; [exact Hle_y | apply Hle; now left].
      * apply Hle. now right.
Qed.

Lemma valid_entries_Forall {A : Type} (l : list (A * float)) :
  Forall (fun x => notnan (snd x) = true) (valid_entries l).
Proof.
  apply Forall_forall. intros x Hx. unfold valid_entries in Hx.
  now apply filter_In in Hx.
Qed.

(** The least value that is not NaN, with its label. *)
Lemma arg_min_spec {A : Type} (l : list (A * float)) (x0 : A * float) :
  In x0 l -> notnan (snd x0) = true ->
  exists m, arg_min l = Some m /\ In m l /\ notnan (snd m) = true
            /\ forall x, In x l -> notnan (snd x) = true ->
                 PrimFloat.leb (snd m) (snd x) = true.
Proof.
  intros Hin Hv. unfold arg_min.
  assert (Hx0 : In x0 (valid_entries l)) by (apply filter_In; auto).
  pose proof (valid_entries_Forall l) as Hall.
  destruct (valid_entries l) as [| e r] eqn:E; [contradiction |].
  destruct (fold_pick_min r e Hall) as [Hm Hle].
  exists (fold_left pick_min r e). split; [reflexivity |].
  rewrite <- E in Hm. apply filter_In in Hm. destruct Hm as [Hm1 Hm2].
  repeat split; auto.
  intros x Hx Hxv. apply Hle. rewrite <- E. apply filter_In. auto.
Qed.

Lemma arg_max_spec {A : Type} (l : list (A * float)) (x0 : A * float) :
  In x0 l -> notnan (snd x0) = true ->
  exists m, arg_max l = Some m /\ In m l /\ notnan (snd m) = true
            /\ forall x, In x l -> notnan (snd x) = true ->
                 PrimFloat.leb (snd x) (snd m) = true.
Proof.
  intros Hin Hv. unfold arg_max.
  assert (Hx0 : In x0 (valid_entries l)) by (apply filter_In; auto).
  pose proof (valid_entries_Forall l) as Hall.
  destruct (valid_entries l) as [| e r] eqn:E; [contradiction |].
  destruct (fold_pick_max r e Hall) as [Hm Hle].
  exists (fold_left pick_max r e). split; [reflexivity |].
  rewrite <- E in Hm. apply filter_In in Hm. destruct Hm as [Hm1 Hm2].
  repeat split; auto.
  intros x Hx Hxv. apply Hle. rewrite <- E. apply filter_In. auto.
Qed.

Lemma insert_by_In {A : Type} (le : float -> float -> bool)
    (x y : A * float) (l : list (A * float)) :
  In y (insert_by le x l) <-> y = x \/ In y l.
Proof.
  induction l as [| z l IH]; simpl; [intuition |].
  destruct (le (snd x) (snd z)); simpl; [intuition |].
  rewrite IH. intuition.
Qed.

Lemma sort_by_In {A : Type} (le : float -> float -> bool)
    (y : A * float) (l : list (A * float)) :
  In y (sort_by le l) <-> In y l.
Proof.
  unfold sort_by. induction l as [| x l IH]; simpl; [tauto |].
  rewrite insert_by_In, IH. intuition.
Qed.











Section Extremes.

Variable path_exists : string -> bool.
Variable read_csv : string -> exn + RawFrame.
Variable py_float_of_string : string -> option float.
Variable to_datetime : pyval -> exn + option datetime.
Variable np_sum : list float -> float.
Variable ttest_ind : list scalar -> list scalar -> exn + (float * float).

Let analyze' :=
  analyze_covid_impact path_exists read_csv py_float_of_string to_datetime
    np_sum ttest_ind.


End Extremes.

(** ** The statements on the sample files *)

Lemma sample_run_csv :
  outcome (Sample.analyze Sample.csv_name)
  = inr (Some Sample.results, Sample.metrics).
Proof. vm_compute. reflexivity. Defined.


Lemma sample_frame :
  preprocess Sample.to_datetime
    (clean_frame Sample.py_float_of_string Sample.table) = inr Sample.frame.
Proof. vm_compute. reflexivity. Defined.







(** The run on a path that names no file ends in the plot stage. *)
Lemma failed_analysis_breaks_plot_witness :
  outcome (Sample.analyze "missing.csv") = inr (None, None)
  /\ outcome (Sample.run "missing.csv") = inl none_error.
Proof.
  assert (H : outcome (Sample.analyze "missing.csv") = inr (None, None))
    by (vm_compute; reflexivity).
  split; [exact H |].
  apply (failed_analysis_breaks_plot Sample.path_exists Sample.read_csv
           Sample.py_float_of_string Sample.to_datetime Sample.np_sum
           Sample.ttest_ind Sample.format_f Sample.series_repr "missing.csv").
  exact H.
Defined.


(** The infinite change of Canada is the mean, the median and the maximum of
    the metrics of [zero.csv]. *)
Example zero_file_metrics :
  exists m, Sample.zero_metrics = Some m
            /\ mean_pct_change m = infinity
            /\ median_pct_change m = infinity
            /\ least_impacted_value m = infinity
            /\ least_impacted_country m = Some "Canada".
Proof. eexists. repeat split. Qed.

(** The row of 2017 of the sample table is kept out of everything. *)
Lemma outside_rows_ignored_witness :
  preprocess Sample.to_datetime
    (clean_frame Sample.py_float_of_string Sample.table) = inr Sample.frame
  /\ nth_error (years_of Sample.frame) 0 = Some (Some 2017%Z)
  /\ nth_error (study_mask Sample.frame) 0 = Some false
  /\ country_results Sample.np_sum
       (select_rows (study_mask Sample.frame) Sample.frame)
     = country_results Sample.np_sum Sample.frame.
Proof.
  split; [exact sample_frame |]. split; [reflexivity |].
  destruct (proj1 outside_rows_ignored Sample.to_datetime Sample.np_sum
              _ _ sample_frame) as [Hrow Hkept].
  split.
  - apply (Hrow 0%nat 2017%Z); [reflexivity | lia].
  - apply Hkept.
Defined.



(** * Further properties of the script *)

(** ** Cleaning *)

Lemma remove_percent_none (s : string) :
  contains_percent s = false -> remove_percent s = s.
Proof.
  induction s as [| c r IH]; simpl; [reflexivity |].
  destruct (Ascii.eqb c percent); [discriminate |].
  intros H. now rewrite IH.
Qed.

(** X1. The cleaner reads a text as it reads the same text without its
    percent signs, wherever they stand in it; and when [float] refuses the
    empty text, a cell made of percent signs only is cleaned to NaN. *)
Theorem clean_percentage_ignores_percent :
  forall pf : string -> option float,
    (forall s, clean_percentage pf (PStr s)
               = clean_percentage pf (PStr (remove_percent s)))
    /\ (pf "" = None ->
        forall s, remove_percent s = "" ->
          PrimFloat.is_nan (clean_percentage pf (PStr s)) = true).
Proof.
  intros pf.
  assert (H : forall s, clean_percentage pf (PStr s)
                        = clean_percentage pf (PStr (remove_percent s))).
  { intros s. unfold clean_percentage, clean_percentage_try.
    rewrite remove_percent_clean.
    destruct (contains_percent s) eqn:E; [reflexivity |].
    now rewrite (remove_percent_none s E). }
  split; [exact H |].
  intros Hempty s Hs. rewrite H, Hs.
  unfold clean_percentage, clean_percentage_try. simpl. now rewrite Hempty.
Qed.

Lemma clean_percentage_ignores_percent_witness :
  Sample.py_float_of_string "" = None
  /\ clean_percentage Sample.py_float_of_string (PStr "1%5")
     = clean_percentage Sample.py_float_of_string (PStr "15")
  /\ PrimFloat.is_nan (clean_percentage Sample.py_float_of_string (PStr "%%"))
     = true.
Proof.
  destruct (clean_percentage_ignores_percent Sample.py_float_of_string)
    as [Hsame Hnan].
  split; [reflexivity |]. split.
  - exact (Hsame "1%5").
  - apply Hnan; reflexivity.
Defined.

(** ** Preprocessing *)

Lemma columns_set_col_eq (n : string) (s : series) (df : DataFrame) :
  columns (set_col n s df)
  = if existsb (String.eqb n) (columns df) then columns df
    else columns df ++ [n].
Proof.
  induction df as [| [m s0] rest IH]; simpl; [reflexivity |].
  rewrite (String.eqb_sym n m).
  destruct (String.eqb_spec m n) as [-> | Hne]; simpl; [reflexivity |].
  rewrite IH. now destruct (existsb (String.eqb n) (columns rest)).
Qed.

Lemma get_col_Some_In (n : string) (df : DataFrame) (s : series) :
  get_col n df = Some s -> existsb (String.eqb n) (columns df) = true.
Proof.
  induction df as [| [m s0] rest IH]; simpl; [discriminate |].
  rewrite (String.eqb_sym n m).
  destruct (String.eqb m n); [reflexivity | exact IH].
Qed.

(** The columns of a preprocessed frame. *)
Lemma preprocess_columns to_datetime (df df' : DataFrame) :
  preprocess to_datetime df = inr df' ->
  columns df'
  = if existsb (String.eqb "Year") (columns df) then columns df
    else columns df ++ ["Year"].
Proof.
  intros Hp.
  destruct (preprocess_inv _ _ _ Hp) as (s & dates & Hs & _ & -> & _ & _).
  rewrite columns_set_col_eq, columns_set_col_eq.
  now rewrite (get_col_Some_In _ _ _ Hs).
Qed.

Lemma get_col_date_clean_frame pf (raw : RawFrame) (s : series) :
  get_col "Date" (clean_frame pf raw) = Some s ->
  exists cells, raw_col "Date" raw = Some cells /\ s = SObj cells.
Proof.
  induction raw as [| [n l] rest IH]; simpl; [discriminate |].
  destruct (String.eqb_spec n "Date") as [-> | Hne]; simpl.
  - intros [= <-]. now exists l.
  - destruct (String.eqb_spec n "Date"); [contradiction | exact IH].
Qed.

(** X2. Preprocessing keeps the columns of the cleaned table in their
    places and adds ['Year'] as the last column, unless the file has a column
    of that name, which it overwrites where it stands; it changes no cell of
    any other column than ['Date'] and ['Year']; and the two columns it
    writes have one entry for each cell of the ['Date'] column of the file,
    the year being that of the timestamp on the same row. *)
Theorem preprocess_keeps_columns :
  forall pf to_datetime (raw : RawFrame) (df : DataFrame),
    preprocess to_datetime (clean_frame pf raw) = inr df ->
    columns df
    = (if existsb (String.eqb "Year") (map fst raw) then map fst raw
       else map fst raw ++ ["Year"])
    /\ (forall c, c <> "Date" -> c <> "Year" ->
          get_col c df = get_col c (clean_frame pf raw))
    /\ exists cells dates,
         raw_col "Date" raw = Some cells
         /\ get_col "Date" df = Some (SDate dates)
         /\ get_col "Year" df = Some (SYear (map (option_map year) dates))
         /\ List.length dates = List.length cells.
Proof.
  intros pf to_datetime raw df Hp.
  split; [rewrite (preprocess_columns _ _ _ Hp), clean_frame_columns;
          reflexivity |].
  destruct (preprocess_inv _ _ _ Hp) as (s & dates & Hs & Hd & Hdf & HD & _).
  split.
  - intros c HnD HnY. rewrite Hdf.
    now rewrite !get_col_set_col_other by assumption.
  - destruct (get_col_date_clean_frame _ _ _ Hs) as (cells & Hcells & ->).
    exists cells, dates. repeat split; try assumption.
    + rewrite Hdf. apply get_col_set_col_same.
    + simpl in Hd. apply mapM_inr in Hd. symmetry.
      eapply Forall2_length. exact Hd.
Qed.

Lemma preprocess_keeps_columns_witness :
  preprocess Sample.to_datetime
    (clean_frame Sample.py_float_of_string Sample.table) = inr Sample.frame
  /\ columns Sample.frame = ["Date"; "Canada"; "France"; "Year"]
  /\ get_col "Canada" Sample.frame
     = get_col "Canada" (clean_frame Sample.py_float_of_string Sample.table).
Proof.
  split; [exact sample_frame |].
  destruct (preprocess_keeps_columns _ _ _ _ sample_frame) as (Hc & Hk & _).
  split; [rewrite Hc; reflexivity | apply Hk; discriminate].
Defined.

(** ** When the analysis succeeds *)

Lemma countries_of_preprocessed pf to_datetime (raw : RawFrame) (df : DataFrame) :
  preprocess to_datetime (clean_frame pf raw) = inr df ->
  countries_of df = filter is_country (map fst raw).
Proof.
  intros Hp. unfold countries_of.
  rewrite (preprocess_columns _ _ _ Hp), clean_frame_columns.
  destruct (existsb (String.eqb "Year") (map fst raw)); [reflexivity |].
  rewrite filter_app. simpl. apply app_nil_r.
Qed.

Section Success.

Variable path_exists : string -> bool.
Variable read_csv : string -> exn + RawFrame.
Variable py_float_of_string : string -> option float.
Variable to_datetime : pyval -> exn + option datetime.
Variable np_sum : list float -> float.
Variable ttest_ind : list scalar -> list scalar -> exn + (float * float).

Let analyze_try' :=
  analyze_try path_exists read_csv py_float_of_string to_datetime np_sum ttest_ind.
Let analyze' :=
  analyze_covid_impact path_exists read_csv py_float_of_string to_datetime
    np_sum ttest_ind.

(** The outcome of the analysis, step by step. *)
Lemma analyze_cases (path : string) :
  outcome (analyze' path)
  = if path_exists path then
      match read_csv path with
      | inl _ => inr (None, None)
      | inr raw =>
          match preprocess to_datetime (clean_frame py_float_of_string raw) with
          | inl _ => inr (None, None)
          | inr df =>
              match countries_of df with
              | [] => inr (None, None)
              | _ :: _ =>
                  match ttest_ind (ttest_sample pre_years df)
                          (ttest_sample during_years df) with
                  | inl _ => inr (None, None)
                  | inr t =>
                      let results :=
                        map (fun c => (c, country_stats_of np_sum df c))
                          (countries_of df) in
                      inr (Some results,
                           Some (global_metrics_of np_sum results t))
                  end
              end
          end
      end
    else inr (None, None).
Proof.
  pose proof (analyze_outcome path_exists read_csv py_float_of_string
                to_datetime np_sum ttest_ind path) as Ho.
  pose proof (analyze_try_outcome path_exists read_csv py_float_of_string
                to_datetime np_sum ttest_ind path) as Ht.
  cbv zeta in Ho, Ht. fold analyze' in Ho. rewrite Ho, Ht.
  destruct (path_exists path); [| reflexivity].
  destruct (read_csv path) as [e | raw]; [reflexivity |].
  destruct (preprocess _ _) as [e | df] eqn:Hp; [reflexivity |].
  rewrite (country_results_total _ _ _ _ _ Hp).
  destruct (countries_of df) as [| c cs]; [reflexivity |]. simpl.
  destruct (ttest_ind _ _) as [e | t]; reflexivity.
Qed.

(** X3. The analysis returns both the table of results and the metrics or
    neither of them: [(None, None)], or a table that is not empty with its
    metrics. It returns them exactly when the path names a file that
    [read_csv] reads, the table has a ['Date'] column all of whose cells
    [to_datetime] reads, at least one column is a country, and the t-test
    raises nothing. *)
Theorem analyze_both_or_neither :
  forall path : string,
    (outcome (analyze' path) = inr (None, None)
     \/ exists r g, outcome (analyze' path) = inr (Some r, Some g) /\ r <> [])
    /\ ((exists r g, outcome (analyze' path) = inr (Some r, Some g))
        <-> path_exists path = true
            /\ exists raw df t,
                 read_csv path = inr raw
                 /\ preprocess to_datetime
                      (clean_frame py_float_of_string raw) = inr df
                 /\ countries_of df <> []
                 /\ ttest_ind (ttest_sample pre_years df)
                      (ttest_sample during_years df) = inr t).
Proof.
  intros path. rewrite analyze_cases.
  destruct (path_exists path).
  2: { split; [now left |]. split; [intros (r & g & H); discriminate |].
       intros [H _]. discriminate. }
  destruct (read_csv path) as [e | raw].
  { split; [now left |]. split; [intros (r & g & H); discriminate |].
    intros (_ & raw & df & t & H & _). discriminate. }
  destruct (preprocess _ _) as [e | df] eqn:Hp.
  { split; [now left |]. split; [intros (r & g & H); discriminate |].
    intros (_ & raw' & df & t & [= <-] & H & _). congruence. }
  destruct (countries_of df) as [| c cs] eqn:Hc.
  { split; [now left |]. split; [intros (r & g & H); discriminate |].
    intros (_ & raw' & df' & t & [= <-] & H & Hne & _).
    rewrite Hp in H. injection H as <-. congruence. }
  destruct (ttest_ind _ _) as [e | t] eqn:Ht.
  { split; [now left |]. split; [intros (r & g & H); discriminate |].
    intros (_ & raw' & df' & t & [= <-] & H & _ & Ht').
    rewrite Hp in H. injection H as <-. congruence. }
  cbv zeta. split.
  - right. eexists. eexists. split; [reflexivity |]. discriminate.
  - split; [| intros _; eexists; eexists; reflexivity].
    intros _. split; [reflexivity |]. exists raw, df, t.
    repeat split; try assumption. rewrite Hc. discriminate.
Qed.

(** X6. The table of results has one row for each column of the file other
    than ['Date'] and ['Year'], under the name of the column and in the order
    of the file; no row is named ['Date'] or ['Year'], and no two rows have
    the same name when no two columns have. *)
Theorem results_follow_file_columns :
  forall (path : string) (results : Results) (g : option GlobalMetrics),
    outcome (analyze' path) = inr (Some results, g) ->
    exists raw,
      read_csv path = inr raw
      /\ map fst results = filter is_country (map fst raw)
      /\ ~ In "Date" (map fst results)
      /\ ~ In "Year" (map fst results)
      /\ (NoDup (map fst raw) -> NoDup (map fst results)).
Proof.
  intros path results g H.
  destruct (analyze_inv _ _ _ _ _ _ _ _ _ H)
    as (raw & df & t & _ & Hr & Hp & Hc & _).
  exists raw. split; [exact Hr |].
  rewrite (country_results_total _ _ _ _ _ Hp) in Hc. injection Hc as <-.
  assert (Hn : map fst (map (fun c => (c, country_stats_of np_sum df c))
                          (countries_of df))
               = filter is_country (map fst raw)).
  { rewrite map_map. simpl. rewrite map_id.
    exact (countries_of_preprocessed _ _ _ _ Hp). }
  rewrite Hn. split; [reflexivity |]. repeat split.
  - intros Hin. apply filter_In in Hin. destruct Hin as [_ Hin]. discriminate.
  - intros Hin. apply filter_In in Hin. destruct Hin as [_ Hin]. discriminate.
  - apply NoDup_filter.
Qed.

End Success.

Lemma analyze_both_or_neither_witness :
  Sample.path_exists Sample.csv_name = true
  /\ exists r g, outcome (Sample.analyze Sample.csv_name) = inr (Some r, Some g).
Proof.
  split; [reflexivity |].
  apply (analyze_both_or_neither Sample.path_exists Sample.read_csv
           Sample.py_float_of_string Sample.to_datetime Sample.np_sum
           Sample.ttest_ind Sample.csv_name).
  split; [reflexivity |].
  eexists. eexists. eexists. split; [reflexivity |].
  split; [exact sample_frame |]. split; [discriminate |].
  vm_compute. reflexivity.
Defined.

Lemma results_follow_file_columns_witness :
  outcome (Sample.analyze Sample.csv_name)
  = inr (Some Sample.results, Sample.metrics)
  /\ map fst Sample.results = ["Canada"; "France"]
  /\ NoDup (map fst Sample.results).
Proof.
  split; [exact sample_run_csv |].
  destruct (results_follow_file_columns Sample.path_exists Sample.read_csv
              Sample.py_float_of_string Sample.to_datetime Sample.np_sum
              Sample.ttest_ind _ _ _ sample_run_csv)
    as (raw & Hr & Hn & _ & _ & Hd).
  vm_compute in Hr. injection Hr as <-.
  split; [rewrite Hn; reflexivity |].
  apply Hd. simpl. repeat constructor; simpl; intuition discriminate.
Defined.

(** ** Files the analysis gives up on *)

Lemma get_col_absent (n : string) (df : DataFrame) :
  ~ In n (columns df) -> get_col n df = None.
Proof.
  induction df as [| [m s] rest IH]; simpl; intros H; [reflexivity |].
  destruct (String.eqb_spec m n) as [-> | Hne]; [tauto |].
  apply IH. tauto.
Qed.

Section GivingUp.

Local Open Scope script_scope.

Variable path_exists : string -> bool.
Variable read_csv : string -> exn + RawFrame.
Variable py_float_of_string : string -> option float.
Variable to_datetime : pyval -> exn + option datetime.
Variable np_sum : list float -> float.
Variable ttest_ind : list scalar -> list scalar -> exn + (float * float).

Let analyze' :=
  analyze_covid_impact path_exists read_csv py_float_of_string to_datetime
    np_sum ttest_ind.

(** X4. On a file with no ['Date'] column the analysis reads and cleans
    the table, fails at the preprocessing with the [KeyError] of the missing
    column, prints it and returns [(None, None)]; it computes no statistics
    and runs no t-test. *)
Theorem analyze_without_date :
  forall (path : string) (raw : RawFrame),
    path_exists path = true ->
    read_csv path = inr raw ->
    ~ In "Date" (map fst raw) ->
    analyze' path
    = ([Enter Load;
        Out ("Reading data from " ++ path ++ "...");
        Enter Clean;
        Out "Converting percentage values...";
        Out (nl ++ "Preprocessing data...");
        Out "An error occurred: 'Date'"],
       inr (None, None)).
Proof.
  intros path raw Hex Hread Hno.
  assert (Hp : preprocess to_datetime (clean_frame py_float_of_string raw)
               = inl (Exn KeyError "'Date'")).
  { unfold preprocess. rewrite get_col_absent; [reflexivity |].
    now rewrite clean_frame_columns. }
  unfold analyze', analyze_covid_impact, analyze_try, try_except, bind, lift,
    print, emit, ret, raise.
  rewrite Hex, Hread, Hp. reflexivity.
Qed.

(** X5. On a file whose only columns are ['Date'] and ['Year'] the analysis
    finds no country: the empty table of results has no column of changes,
    so the global metrics raise a [KeyError], which is printed, and the
    analysis returns [(None, None)] without running the t-test. *)
Theorem analyze_without_country :
  forall (path : string) (raw : RawFrame) (df : DataFrame),
    path_exists path = true ->
    read_csv path = inr raw ->
    preprocess to_datetime (clean_frame py_float_of_string raw) = inr df ->
    filter is_country (map fst raw) = [] ->
    analyze' path
    = ([Enter Load;
        Out ("Reading data from " ++ path ++ "...");
        Enter Clean;
        Out "Converting percentage values...";
        Out (nl ++ "Preprocessing data...");
        Enter Aggregate;
        Out "Calculating statistics for different periods...";
        Out "Analyzing country-specific impacts...";
        Out "Calculating global metrics...";
        Out "An error occurred: 'pct_change_during_covid'"],
       inr (None, None)).
Proof.
  intros path raw df Hex Hread Hp Hnone.
  assert (Hc : country_results np_sum df = inr []).
  { rewrite (country_results_total _ _ _ _ _ Hp).
    now rewrite (countries_of_preprocessed _ _ _ _ Hp), Hnone. }
  unfold analyze', analyze_covid_impact, analyze_try, try_except, bind, lift,
    print, emit, ret, raise.
  rewrite Hex, Hread, Hp, Hc. reflexivity.
Qed.

End GivingUp.

Lemma analyze_without_date_witness :
  Cases.path_exists "undated.csv" = true
  /\ Cases.read_csv "undated.csv" = inr Cases.undated_table
  /\ ~ In "Date" (map fst Cases.undated_table)
  /\ outcome (Cases.analyze "undated.csv") = inr (None, None).
Proof.
  assert (Hno : ~ In "Date" (map fst Cases.undated_table))
    by (simpl; intuition discriminate).
  split; [reflexivity |]. split; [reflexivity |]. split; [exact Hno |].
  unfold Cases.analyze.
  rewrite (analyze_without_date Cases.path_exists Cases.read_csv
             Sample.py_float_of_string Sample.to_datetime Sample.np_sum
             Sample.ttest_ind "undated.csv" Cases.undated_table
             eq_refl eq_refl Hno).
  reflexivity.
Defined.

Lemma analyze_without_country_witness :
  Cases.path_exists "dates.csv" = true
  /\ Cases.read_csv "dates.csv" = inr Cases.dates_only_table
  /\ filter is_country (map fst Cases.dates_only_table) = []
  /\ outcome (Cases.analyze "dates.csv") = inr (None, None).
Proof.
  split; [reflexivity |]. split; [reflexivity |]. split; [reflexivity |].
  unfold Cases.analyze.
  erewrite (analyze_without_country Cases.path_exists Cases.read_csv
              Sample.py_float_of_string Sample.to_datetime Sample.np_sum
              Sample.ttest_ind "dates.csv" Cases.dates_only_table _
              eq_refl eq_refl).
  - reflexivity.
  - vm_compute. reflexivity.
  - reflexivity.
Defined.

(** ** What the dates are used for *)

(** X7. Of a date the analysis uses the year alone: two readings of the
    ['Date'] column that give the same years, whatever the months and days,
    give the same table of results. *)
Theorem only_the_year_matters :
  forall pf np_sum to_datetime1 to_datetime2 (raw : RawFrame)
         (df1 df2 : DataFrame),
    preprocess to_datetime1 (clean_frame pf raw) = inr df1 ->
    preprocess to_datetime2 (clean_frame pf raw) = inr df2 ->
    years_of df1 = years_of df2 ->
    country_results np_sum df1 = country_results np_sum df2.
Proof.
  intros pf np_sum td1 td2 raw df1 df2 H1 H2 Hy.
  rewrite (country_results_total _ _ _ _ _ H1),
          (country_results_total _ _ _ _ _ H2).
  rewrite (countries_of_preprocessed _ _ _ _ H1),
          <- (countries_of_preprocessed _ _ _ _ H2).
  f_equal. apply map_ext_in. intros c Hc. f_equal.
  destruct (country_column_cleaned _ _ _ _ _ H2 Hc) as (cells & Hraw & Hg2).
  assert (Hc1 : In c (countries_of df1)).
  { rewrite (countries_of_preprocessed _ _ _ _ H1),
            <- (countries_of_preprocessed _ _ _ _ H2). exact Hc. }
  destruct (country_column_cleaned _ _ _ _ _ H1 Hc1) as (cells' & Hraw' & Hg1).
  assert (cells' = cells) by congruence. subst cells'.
  unfold country_stats_of, column_floats, pre_mask, during_mask, post_mask.
  now rewrite Hg1, Hg2, Hy.
Qed.

Lemma only_the_year_matters_witness :
  (exists df2,
     preprocess Cases.to_datetime_first
       (clean_frame Sample.py_float_of_string Sample.table) = inr df2
     /\ get_col "Date" df2 <> get_col "Date" Sample.frame
     /\ years_of Sample.frame = years_of df2
     /\ country_results Sample.np_sum Sample.frame
        = country_results Sample.np_sum df2).
Proof.
  eexists. split; [vm_compute; reflexivity |].
  split; [vm_compute; discriminate |].
  split; [vm_compute; reflexivity |].
  apply (only_the_year_matters Sample.py_float_of_string Sample.np_sum
           Sample.to_datetime Cases.to_datetime_first Sample.table).
  - exact sample_frame.
  - vm_compute. reflexivity.
  - vm_compute. reflexivity.
Defined.






(** ** The percentage change on floats *)

Lemma is_nan_true (f : float) :
  PrimFloat.is_nan f = true <-> Prim2SF f = S754_nan.
Proof.
  rewrite is_nan_spec. destruct (Prim2SF f); simpl; split; congruence.
Qed.

(** X9. A country with no value during COVID (its mean is NaN) has the
    change NaN, whatever its pre-COVID mean; and a country whose two means
    are the same finite number other than zero has the change zero. *)
Theorem pct_change_edge_values :
  forall pre during : float,
    (PrimFloat.is_nan during = true ->
     PrimFloat.is_nan (pct_change pre during) = true)
    /\ (is_finite pre = true -> PrimFloat.eqb pre 0 = false ->
        during = pre ->
        PrimFloat.eqb (pct_change pre during) 0 = true).
Proof.
  intros pre during. split.
  - intros H. apply is_nan_true in H. apply is_nan_true.
    unfold pct_change. rewrite mul_spec, div_spec, sub_spec, H.
    reflexivity.
  - intros Hfin Hnz ->.
    rewrite is_finite_spec in Hfin. rewrite FloatAxioms.eqb_spec in Hnz.
    rewrite FloatAxioms.eqb_spec. unfold pct_change.
    rewrite mul_spec, div_spec, sub_spec.
    change (Prim2SF 100) with (S754_finite false 7036874417766400 (-46)).
    change (Prim2SF 0) with (S754_zero false) in *.
    destruct (Prim2SF pre) as [s | s | | s m e]; try discriminate.
    unfold SF64sub, SFsub. rewrite Z.min_id.
    unfold shl_align. rewrite !Z.sub_diag. cbn [binary_normalize].
    now destruct s.
Qed.

Lemma pct_change_edge_values_witness :
  is_finite 2 = true
  /\ PrimFloat.eqb (pct_change 2 2) 0 = true
  /\ PrimFloat.is_nan (pct_change 2 nan) = true.
Proof.
  destruct (pct_change_edge_values 2 2) as [_ Hsame].
  destruct (pct_change_edge_values 2 nan) as [Hnan _].
  split; [reflexivity |]. split.
  - apply Hsame; reflexivity.
  - apply Hnan. reflexivity.
Defined.

(** ** Sorting the table of results *)

Lemma insert_by_perm {A : Type} (le : float -> float -> bool)
    (x : A * float) (l : list (A * float)) :
  Permutation (insert_by le x l) (x :: l).
Proof.
  induction l as [| y l IH]; simpl; [apply Permutation_refl |].
  destruct (le (snd x) (snd y)); [apply Permutation_refl |].
  eapply Permutation_trans; [apply perm_skip, IH | apply perm_swap].
Qed.

Lemma sort_by_perm {A : Type} (le : float -> float -> bool)
    (l : list (A * float)) :
  Permutation (sort_by le l) l.
Proof.
  unfold sort_by. induction l as [| x l IH]; simpl; [constructor |].
  eapply Permutation_trans; [apply insert_by_perm | now apply perm_skip].
Qed.

Lemma filter_split_perm {A : Type} (f : A -> bool) (l : list A) :
  Permutation (filter f l ++ filter (fun x => negb (f x)) l) l.
Proof.
  induction l as [| x l IH]; simpl; [constructor |].
  destruct (f x); simpl; [now apply perm_skip |].
  apply Permutation_sym. apply Permutation_cons_app. now apply Permutation_sym.
Qed.

Section Orders.

(** An order on floats that is transitive and total on the values that are
    not NaN: [<=] and its converse are the two the script sorts by. *)
Variable le : float -> float -> bool.
Hypothesis le_trans : forall a b c, le a b = true -> le b c = true -> le a c = true.
Hypothesis le_flip :
  forall a b, notnan a = true -> notnan b = true -> le a b = false -> le b a = true.

Lemma insert_by_sorted_le {A : Type} (x : A * float) (l : list (A * float)) :
  notnan (snd x) = true ->
  Forall (fun e => notnan (snd e) = true) l ->
  StronglySorted (fun p q => le (snd p) (snd q) = true) l ->
  StronglySorted (fun p q => le (snd p) (snd q) = true) (insert_by le x l).
Proof.
  intros Hx Hall Hs. induction Hs as [| y r Hr IH Hy]; simpl.
  - constructor; constructor.
  - inversion Hall as [| ? ? Hyv Hrv]; subst.
    destruct (le (snd x) (snd y)) eqn:E.
    + constructor; [now constructor |]. constructor; [exact E |].
      eapply Forall_impl; [| exact Hy]. intros z Hz. simpl in Hz.
      now apply (le_trans _ _ _ E).
    + constructor; [now apply IH |].
      apply Forall_forall. intros z Hz. apply insert_by_In in Hz.
      destruct Hz as [-> | Hz]; [now apply le_flip |].
      rewrite Forall_forall in Hy. now apply Hy.
Qed.

Lemma sort_by_sorted_le {A : Type} (l : list (A * float)) :
  Forall (fun e => notnan (snd e) = true) l ->
  StronglySorted (fun p q => le (snd p) (snd q) = true) (sort_by le l).
Proof.
  unfold sort_by. induction 1 as [| x l Hx Hl IH]; simpl; [constructor |].
  apply insert_by_sorted_le; [exact Hx | | exact IH].
  apply Forall_forall. intros e He. apply sort_by_In in He.
  rewrite Forall_forall in Hl. now apply Hl.
Qed.

End Orders.

Lemma sorted_map {A B : Type} (R : A -> A -> Prop) (S : B -> B -> Prop)
    (f : A -> B) (l : list A) :
  (forall a b, In a l -> In b l -> R a b -> S (f a) (f b)) ->
  StronglySorted R l -> StronglySorted S (map f l).
Proof.
  intros H Hs. induction Hs as [| x l Hl IH Hx]; simpl; constructor.
  - apply IH. intros a b Ha Hb. apply H; now right.
  - apply Forall_map. rewrite Forall_forall in *. intros y Hy.
    apply H; [now left | now right | now apply Hx].
Qed.

Lemma map_fst_filter_keyed (f : float -> bool) (r : Results) :
  map fst (filter (fun kp => f (snd kp))
             (map (fun e => (e, pct_change_during_covid (snd e))) r))
  = filter (fun e => f (pct_change_during_covid (snd e))) r.
Proof.
  induction r as [| e r IH]; simpl; [reflexivity |].
  destruct (f (pct_change_during_covid (snd e))); simpl; now rewrite IH.
Qed.

(** The sorted table: the rows whose change is not NaN in order, then the
    rows whose change is NaN, and all rows of the table among them. *)
Lemma sort_values_shape (ascending : bool) (r : Results) :
  exists valid nans,
    sort_values ascending r = valid ++ nans
    /\ Forall (fun e => valid_row e = true) valid
    /\ nans = filter (fun e => negb (valid_row e)) r
    /\ StronglySorted (row_le ascending) valid
    /\ Permutation (sort_values ascending r) r.
Proof.
  unfold sort_values.
  set (keyed := map (fun e => (e, pct_change_during_covid (snd e))) r).
  set (le := if ascending then PrimFloat.leb
             else fun a b => PrimFloat.leb b a).
  assert (Hkey : forall kp, In kp keyed ->
                   snd kp = pct_change_during_covid (snd (fst kp))).
  { intros kp Hkp. unfold keyed in Hkp. apply in_map_iff in Hkp.
    now destruct Hkp as [e [<- _]]. }
  assert (Hfst : forall f, map fst (filter (fun kp => f (snd kp)) keyed)
                           = filter (fun e => f (pct_change_during_covid (snd e))) r)
    by (intros f; apply map_fst_filter_keyed).
  exists (map fst (sort_by le (filter (fun e => notnan (snd e)) keyed))),
         (map fst (filter (fun e => PrimFloat.is_nan (snd e)) keyed)).
  assert (Hvalid_in : forall kp,
            In kp (sort_by le (filter (fun e => notnan (snd e)) keyed)) ->
            In kp keyed /\ notnan (snd kp) = true).
  { intros kp Hkp. apply sort_by_In in Hkp. now apply filter_In in Hkp. }
  split; [reflexivity |]. split; [| split; [| split]].
  - apply Forall_map. apply Forall_forall. intros kp Hkp.
    destruct (Hvalid_in kp Hkp) as [Hin Hv].
    unfold valid_row. now rewrite <- (Hkey kp Hin).
  - rewrite (Hfst PrimFloat.is_nan). apply filter_ext. intros e.
    unfold valid_row, notnan. now rewrite negb_involutive.
  - assert (Hs : StronglySorted (fun p q => le (snd p) (snd q) = true)
                   (sort_by le (filter (fun e => notnan (snd e)) keyed))).
    { apply sort_by_sorted_le.
      - unfold le. destruct ascending; intros a b c Hab Hbc;
          [exact (leb_trans _ _ _ Hab Hbc) | exact (leb_trans _ _ _ Hbc Hab)].
      - unfold le. destruct ascending; intros a b Ha Hb Hab;
          [now apply leb_flip | now apply leb_flip].
      - apply Forall_forall. intros kp Hkp. now apply filter_In in Hkp. }
    eapply sorted_map; [| exact Hs].
    intros a b Ha Hb Hab.
    destruct (Hvalid_in a Ha) as [Hina _]. destruct (Hvalid_in b Hb) as [Hinb _].
    cbv beta in Hab. rewrite (Hkey a Hina), (Hkey b Hinb) in Hab.
    unfold row_le, le in *. now destruct ascending.
  - rewrite <- map_app.
    assert (Hr : map fst keyed = r).
    { unfold keyed. rewrite map_map. simpl. now rewrite map_id. }
    apply (Permutation_trans (l' := map fst keyed));
      [| rewrite Hr; apply Permutation_refl].
    apply Permutation_map.
    eapply Permutation_trans.
    + apply Permutation_app_tail. apply sort_by_perm.
    + eapply Permutation_trans; [| apply (filter_split_perm
                                            (fun e => notnan (snd e)) keyed)].
      apply Permutation_app_head.
      rewrite (filter_ext (fun e => PrimFloat.is_nan (snd e))
                          (fun x => negb (notnan (snd x))));
        [apply Permutation_refl |].
      intros e. unfold notnan. now rewrite negb_involutive.
Qed.

(** ** The charts *)



Lemma in_skipn {A : Type} (x : A) (k : nat) (l : list A) :
  In x (skipn k l) -> In x l.
Proof.
  revert l. induction k as [| k IH]; intros l; [trivial |].
  destruct l as [| y l]; simpl; [trivial |]. intros H. right. now apply IH.
Qed.

(** In a list made of sorted valid rows followed by NaN rows, every row
    among the first [k] comes before every valid row after them. *)
Lemma head_before_tail (R : string * country_stats -> string * country_stats -> Prop)
    (valid nans : Results) (k : nat) (p q : string * country_stats) :
  StronglySorted R valid ->
  Forall (fun e => valid_row e = true) valid ->
  Forall (fun e => valid_row e = false) nans ->
  In p (firstn k (valid ++ nans)) ->
  In q (skipn k (valid ++ nans)) ->
  valid_row q = true ->
  valid_row p = true /\ R p q.
Proof.
  intros Hs. revert k. induction Hs as [| x v Hv IH Hx]; intros k Hvalid Hnans Hp Hq Hqv.
  - simpl in Hq. apply in_skipn in Hq.
    rewrite Forall_forall in Hnans. rewrite (Hnans q Hq) in Hqv. discriminate.
  - destruct k as [| k]; [contradiction |].
    inversion Hvalid as [| ? ? Hxv Hvv]; subst.
    simpl in Hp, Hq. destruct Hp as [<- | Hp].
    + split; [exact Hxv |].
      apply in_skipn in Hq. apply in_app_or in Hq. destruct Hq as [Hq | Hq].
      * rewrite Forall_forall in Hx. now apply Hx.
      * rewrite Forall_forall in Hnans. rewrite (Hnans q Hq) in Hqv. discriminate.
    + now apply (IH k).
Qed.

(** X11. Whatever number [k] of first rows is taken of the sorted table (10
    for the chart of the most impacted countries, 5 for the two printed
    tables), they are [k] rows of the table, or all of them when it has
    fewer, and each of them comes before every row left out whose change is
    not NaN: its change is not NaN either and is at most (ascending) or at
    least (descending) that of the row left out. *)
Theorem first_rows_are_extreme :
  forall (ascending : bool) (k : nat) (r : Results),
    let shown := firstn k (sort_values ascending r) in
    let hidden := skipn k (sort_values ascending r) in
    List.length shown = Nat.min k (List.length r)
    /\ Permutation (shown ++ hidden) r
    /\ forall p q, In p shown -> In q hidden -> valid_row q = true ->
         valid_row p = true /\ row_le ascending p q.
Proof.
  intros ascending k r shown hidden.
  destruct (sort_values_shape ascending r)
    as (valid & nans & Hs & Hv & Hn & Hsort & Hp).
  split; [| split].
  - unfold shown. rewrite length_firstn.
    now rewrite (Permutation_length Hp).
  - unfold shown, hidden. now rewrite firstn_skipn.
  - intros p q Hpin Hqin Hqv. unfold shown, hidden in Hpin, Hqin.
    rewrite Hs in Hpin, Hqin.
    assert (Hnans : Forall (fun e => valid_row e = false) nans).
    { rewrite Hn. apply Forall_forall. intros e He. apply filter_In in He.
      destruct He as [_ He]. now apply negb_true_iff in He. }
    exact (head_before_tail (row_le ascending) valid nans k p q
             Hsort Hv Hnans Hpin Hqin Hqv).
Qed.








(** ** The run and its files *)





Section Files.

Variable path_exists : string -> bool.
Variable read_csv : string -> exn + RawFrame.
Variable py_float_of_string : string -> option float.
Variable to_datetime : pyval -> exn + option datetime.
Variable np_sum : list float -> float.
Variable ttest_ind : list scalar -> list scalar -> exn + (float * float).
Variable format_f : nat -> float -> string.
Variable series_repr : list (string * float) -> string.

Let analyze_try' :=
  analyze_try path_exists read_csv py_float_of_string to_datetime np_sum ttest_ind.
Let analyze' :=
  analyze_covid_impact path_exists read_csv py_float_of_string to_datetime
    np_sum ttest_ind.
Let main_on' :=
  main_on path_exists read_csv py_float_of_string to_datetime np_sum ttest_ind
    format_f series_repr.




End Files.


(** ** The charts and the metrics *)

Lemma SFleb_antisym (x y : spec_float) :
  SFleb x y = true -> SFleb y x = true -> SFeqb x y = true.
Proof.
  unfold SFleb, SFeqb, SFcompare.
  destruct x as [sx | sx | | sx mx ex], y as [sy | sy | | sy my ey];
    try destruct sx; try destruct sy;
    try reflexivity; try discriminate;
    break_compare; simpl; try reflexivity; try discriminate;
    intros; subst; lia.
Qed.

Lemma leb_antisym (a b : float) :
  PrimFloat.leb a b = true -> PrimFloat.leb b a = true ->
  PrimFloat.eqb a b = true.
Proof. rewrite !leb_spec, FloatAxioms.eqb_spec. apply SFleb_antisym. Qed.

(** The first row of the sorted table, when some change is not NaN. *)
Lemma sort_values_head (ascending : bool) (r : Results)
    (e0 : string * country_stats) :
  In e0 r -> valid_row e0 = true ->
  exists x rest,
    sort_values ascending r = x :: rest
    /\ In x r /\ valid_row x = true
    /\ forall y, In y r -> valid_row y = true -> y = x \/ row_le ascending x y.
Proof.
  intros Hin Hv.
  destruct (sort_values_shape ascending r)
    as (valid & nans & Hs & Hvalid & Hn & Hsort & Hp).
  assert (Hmem : forall y, In y r -> valid_row y = true -> In y valid).
  { intros y Hy Hyv.
    apply (Permutation_in _ (Permutation_sym Hp)) in Hy.
    rewrite Hs in Hy. apply in_app_or in Hy. destruct Hy as [Hy | Hy]; [exact Hy |].
    rewrite Hn in Hy. apply filter_In in Hy. destruct Hy as [_ Hy].
    rewrite Hyv in Hy. discriminate. }
  destruct valid as [| x v]; [destruct (Hmem e0 Hin Hv) |].
  exists x, (v ++ nans). split; [exact Hs |].
  inversion Hvalid as [| ? ? Hxv _]; subst.
  inversion Hsort as [| ? ? _ Hx]; subst.
  split; [| split; [exact Hxv |]].
  - apply (Permutation_in _ Hp). rewrite Hs. now left.
  - intros y Hy Hyv. destruct (Hmem y Hy Hyv) as [<- | Hyin]; [now left |].
    right. rewrite Forall_forall in Hx. now apply Hx.
Qed.

Section ChartsAndMetrics.

Variable path_exists : string -> bool.
Variable read_csv : string -> exn + RawFrame.
Variable py_float_of_string : string -> option float.
Variable to_datetime : pyval -> exn + option datetime.
Variable np_sum : list float -> float.
Variable ttest_ind : list scalar -> list scalar -> exn + (float * float).

Let analyze' :=
  analyze_covid_impact path_exists read_csv py_float_of_string to_datetime
    np_sum ttest_ind.

(** X14. The charts and the report agree with the metrics: when some
    change is not NaN, the first row of the table sorted in ascending order
    (the first bar of the first chart and of the chart of the ten most
    impacted countries, and the first row of the printed table of the most
    negatively impacted ones) carries the most impacted value, and the first
    row of the table sorted in descending order carries the least impacted
    value. *)
Theorem first_rows_carry_the_extremes :
  forall (path : string) (results : Results) (g : GlobalMetrics),
    outcome (analyze' path) = inr (Some results, Some g) ->
    (exists c s, In (c, s) results
                 /\ notnan (pct_change_during_covid s) = true) ->
    exists low rest_low high rest_high,
      sort_values true results = low :: rest_low
      /\ PrimFloat.eqb (pct_change_during_covid (snd low))
           (most_impacted_value g) = true
      /\ sort_values false results = high :: rest_high
      /\ PrimFloat.eqb (pct_change_during_covid (snd high))
           (least_impacted_value g) = true.
Proof.
  intros path results g H (c0 & s0 & Hin0 & Hv0).
  destruct (results_rows _ _ _ _ _ _ _ _ _ H) as [_ [t Hg]].
  injection Hg as Hg.
  set (col := pct_column results).
  assert (Hcol : forall e, In e results ->
                   In (fst e, pct_change_during_covid (snd e)) col).
  { intros e He. unfold col, pct_column. apply in_map_iff. now exists e. }
  assert (Hcol' : forall p, In p col ->
                    exists e, In e results
                              /\ snd p = pct_change_during_covid (snd e)).
  { intros p Hp. unfold col, pct_column in Hp. apply in_map_iff in Hp.
    destruct Hp as [e [<- He]]. now exists e. }
  destruct (arg_min_spec col _ (Hcol _ Hin0) Hv0)
    as (mn & Hmn & Hmn_in & Hmn_v & Hmn_le).
  destruct (arg_max_spec col _ (Hcol _ Hin0) Hv0)
    as (mx & Hmx & Hmx_in & Hmx_v & Hmx_le).
  assert (Hlo : most_impacted_value g = snd mn).
  { rewrite Hg. cbn [global_metrics_of most_impacted_value].
    fold col. unfold series_min. now rewrite Hmn. }
  assert (Hhi : least_impacted_value g = snd mx).
  { rewrite Hg. cbn [global_metrics_of least_impacted_value].
    fold col. unfold series_max. now rewrite Hmx. }
  destruct (sort_values_head true results (c0, s0) Hin0 Hv0)
    as (low & rest_low & Hsl & Hlin & Hlv & Hlle).
  destruct (sort_values_head false results (c0, s0) Hin0 Hv0)
    as (high & rest_high & Hsh & Hhin & Hhv & Hhle).
  exists low, rest_low, high, rest_high.
  split; [exact Hsl |]. split; [| split; [exact Hsh |]].
  - rewrite Hlo. apply leb_antisym.
    + destruct (Hcol' mn Hmn_in) as (y & Hy & Hyv).
      rewrite Hyv. rewrite Hyv in Hmn_v.
      destruct (Hlle y Hy Hmn_v) as [-> | Hle]; [now apply leb_refl | exact Hle].
    + apply (Hmn_le _ (Hcol low Hlin)). exact Hlv.
  - rewrite Hhi. apply leb_antisym.
    + apply (Hmx_le _ (Hcol high Hhin)). exact Hhv.
    + destruct (Hcol' mx Hmx_in) as (y & Hy & Hyv).
      rewrite Hyv. rewrite Hyv in Hmx_v.
      destruct (Hhle y Hy Hmx_v) as [-> | Hle]; [now apply leb_refl | exact Hle].
Qed.

End ChartsAndMetrics.

Lemma first_rows_carry_the_extremes_witness :
  outcome (Cases.analyze "wide.csv")
  = inr (Some Cases.wide_results, Cases.wide_metrics)
  /\ exists g low rest,
       Cases.wide_metrics = Some g
       /\ sort_values true Cases.wide_results = low :: rest
       /\ PrimFloat.eqb (pct_change_during_covid (snd low))
            (most_impacted_value g) = true.
Proof.
  assert (Hrun : outcome (Cases.analyze "wide.csv")
                 = inr (Some Cases.wide_results, Cases.wide_metrics))
    by (vm_compute; reflexivity).
  split; [exact Hrun |].
  eexists.
  destruct (first_rows_carry_the_extremes Cases.path_exists Cases.read_csv
              Sample.py_float_of_string Sample.to_datetime Sample.np_sum
              Sample.ttest_ind "wide.csv" Cases.wide_results _ Hrun)
    as (low & rest & _ & _ & Hs & He & _).
  - eexists. eexists. split; [left; reflexivity | reflexivity].
  - exists low, rest. split; [reflexivity |]. split; assumption.
Defined.

(** ** The size of the t-test samples *)

Lemma select_length {A : Type} (mask : list bool) (l : list A) :
  List.length l = List.length mask ->
  List.length (select mask l) = count_true mask.
Proof.
  unfold count_true. revert l.
  induction mask as [| b mask IH]; intros l Hl; [reflexivity |].
  destruct l as [| x l]; [discriminate |]. simpl in *.
  destruct b; simpl; rewrite IH; auto.
Qed.

Lemma flatten_rows_length (k : nat) (cols : list (list scalar)) :
  Forall (fun c => List.length c = k) cols ->
  List.length (flatten_rows k cols) = (k * List.length cols)%nat.
Proof.
  revert cols. induction k as [| k IH]; intros cols H; [reflexivity |].
  simpl. rewrite length_app, IH.
  - assert (Hh : List.length
                   (flat_map (fun c : list scalar =>
                                match c with [] => [] | x :: _ => [x] end) cols)
                 = List.length cols).
    { induction H as [| c cols Hc _ IHc]; simpl; [reflexivity |].
      destruct c as [| x c]; [discriminate |]. simpl. now rewrite IHc. }
    rewrite Hh, length_map. lia.
  - apply Forall_map. eapply Forall_impl; [| exact H].
    intros [| x c] Hc; simpl in *; [discriminate | lia].
Qed.

Lemma flatten_rows_In (k : nat) (cols : list (list scalar)) (c : list scalar)
    (x : scalar) :
  Forall (fun c => List.length c = k) cols ->
  In c cols -> In x c -> In x (flatten_rows k cols).
Proof.
  revert cols c. induction k as [| k IH]; intros cols c H Hc Hx.
  - rewrite Forall_forall in H. specialize (H c Hc).
    destruct c; [contradiction | discriminate].
  - simpl. apply in_or_app.
    destruct c as [| y c]; [contradiction |].
    destruct Hx as [<- | Hx].
    + left. apply in_flat_map. exists (y :: c). split; [exact Hc | now left].
    + right. apply (IH _ c); [| | exact Hx].
      * apply Forall_map. eapply Forall_impl; [| exact H].
        intros [| z d] Hd; simpl in *; [discriminate | lia].
      * apply in_map_iff. exists (y :: c). auto.
Qed.

(** X15. With ['Date'] as the first column of a file of [n] rows and no
    column named ['Year'], each sample of the t-test holds one value for
    every row of its period and every country: no cell is dropped, so a cell
    that was cleaned to NaN, which the means skip, is a value of the
    sample. *)
Theorem ttest_sample_keeps_every_cell :
  forall pf to_datetime (dcells : list pyval) (rest : RawFrame)
         (df : DataFrame) (ys : list Z) (n : nat),
    ~ In "Date" (map fst rest) -> ~ In "Year" (map fst rest) ->
    rectangular n (("Date", dcells) :: rest) ->
    preprocess to_datetime (clean_frame pf (("Date", dcells) :: rest)) = inr df ->
    List.length (ttest_sample ys df)
    = (count_true (isin (years_of df) ys) * List.length rest)%nat
    /\ forall name cells x,
         In (name, cells) rest ->
         In x (select (isin (years_of df) ys)
                 (map (clean_percentage pf) cells)) ->
         In (VNum x) (ttest_sample ys df).
Proof.
  intros pf to_datetime dcells rest df ys n HnD HnY Hrect Hp.
  destruct (ttest_sample_countries pf to_datetime dcells rest df ys HnD HnY Hp)
    as (Hcf & Hsample & _).
  rewrite Hsample, Hcf.
  set (mask := isin (years_of df) ys).
  assert (Hmask : List.length mask = n).
  { unfold mask, isin. rewrite length_map.
    destruct (preprocess_inv _ _ _ Hp) as (s & dates & Hs & Hd & _ & _ & Hy).
    rewrite Hy, length_map. simpl in Hs. injection Hs as <-. simpl in Hd.
    apply mapM_inr in Hd. rewrite <- (Forall2_length Hd).
    now inversion Hrect. }
  assert (Hrest : Forall (fun c => List.length (snd c) = n) rest)
    by now inversion Hrect.
  set (k := count_true mask).
  assert (Hcols : Forall (fun c : list scalar => List.length c = k)
                    (map (fun c => series_values (snd c))
                       (select_rows mask (clean_frame pf rest)))).
  { unfold select_rows, clean_frame. rewrite !map_map. apply Forall_map.
    eapply Forall_impl; [| exact Hrest]. intros [name cells] Hc. simpl in *.
    destruct (String.eqb name "Date"); simpl; rewrite length_map;
      apply select_length; rewrite ?length_map; congruence. }
  assert (Hrows : rest <> [] ->
                  nrows (select_rows mask (clean_frame pf rest)) = k).
  { intros Hne. destruct rest as [| [name cells] rest']; [congruence |].
    inversion Hcols as [| ? ? Hc _]; subst. simpl in *. exact Hc. }
  unfold values_flatten. split.
  - destruct rest as [| c rest']; [simpl; lia |].
    rewrite Hrows by discriminate.
    rewrite (flatten_rows_length _ _ Hcols), !length_map.
    unfold select_rows, clean_frame. rewrite !length_map. reflexivity.
  - intros name cells x Hin Hx.
    rewrite Hrows by (intros ->; contradiction).
    apply (flatten_rows_In _ _
             (map VNum (select mask (map (clean_percentage pf) cells))) _ Hcols).
    + unfold select_rows, clean_frame. rewrite !map_map. apply in_map_iff.
      exists (name, cells). split; [| exact Hin]. simpl.
      destruct (String.eqb_spec name "Date") as [-> | Hne]; [| reflexivity].
      exfalso. apply HnD. apply in_map_iff. now exists ("Date", cells).
    + now apply in_map.
Qed.

Lemma ttest_sample_keeps_every_cell_witness :
  rectangular 6 Cases.wide_table
  /\ preprocess Sample.to_datetime
       (clean_frame Sample.py_float_of_string Cases.wide_table)
     = inr Cases.wide_frame
  /\ List.length (ttest_sample pre_years Cases.wide_frame) = 6%nat
  /\ In (VNum nan) (ttest_sample pre_years Cases.wide_frame).
Proof.
  assert (Hrect : rectangular 6 Cases.wide_table)
    by (repeat constructor).
  assert (Hp : preprocess Sample.to_datetime
                 (clean_frame Sample.py_float_of_string Cases.wide_table)
               = inr Cases.wide_frame) by (vm_compute; reflexivity).
  split; [exact Hrect |]. split; [exact Hp |].
  destruct (ttest_sample_keeps_every_cell Sample.py_float_of_string
              Sample.to_datetime
              [PStr "3/31/18"; PStr "6/30/19"; PStr "6/30/20";
               PStr "6/30/21"; PStr "6/30/22"; PStr "6/30/23"]
              (tl Cases.wide_table) Cases.wide_frame pre_years 6%nat
              ltac:(simpl; intuition discriminate)
              ltac:(simpl; intuition discriminate) Hrect Hp) as [Hlen Hin].
  split.
  - rewrite Hlen. reflexivity.
  - apply (Hin "Japan"
             [PStr "4%"; PFloat nan; PStr "4%"; PStr "4%"; PStr "4%"; PStr "4%"]
             nan).
    + right. right. left. reflexivity.
    + vm_compute. right. left. reflexivity.
Defined.
